(** * Hourly wage counter: the accounting core

    A shallow embedding of the classes [WageCounter], [TimerManager] and
    [WageCounterApp] of the application script, followed by the
    properties of its specification.

    Conventions of the embedding.
    - JavaScript numbers are IEEE-754 binary64 values: Rocq's primitive
      [float].  Arguments a method receives unchecked are JavaScript
      values ([Js.value]); comparisons and arithmetic coerce them with
      [Js.toNumber] as the language does.
    - [Date.now()] is a whole number of milliseconds: an integer [Z].
      Sums and differences of such instants are exact in binary64 (they
      stay far below 2^53), so the timer's arithmetic is integer
      arithmetic and [Math.floor (x / 1000)] is floor division.
    - [Date.now()], [new Date()], [setInterval] and [clearInterval] are
      the environment: the current instant is an argument of each
      method that reads the clock, and the pending interval timers are
      an explicit [Scheduler] threaded through the methods that touch
      them.
    - [console] output is not modelled. *)

From Stdlib Require Import ZArith Lia Bool String Ascii List.
From Stdlib Require Import Floats DecimalString DecimalPos.
From stdpp Require Import base gmap.

Local Open Scope Z_scope.

(** ** JavaScript values and the operators the classes use *)

Module Js.

(** The primitive values a caller can pass where a number is expected,
    and plain objects.  Strings are left out: their coercion to a
    number is a parser of its own. *)
Inductive value : Type :=
| Undefined
| Null
| Bool (b : bool)
| Num (f : float)
| Obj.

(** ToNumber. *)
Definition toNumber (v : value) : float :=
  match v with
  | Undefined => nan
  | Null => 0%float
  | Bool true => 1%float
  | Bool false => 0%float
  | Num f => f
  | Obj => nan
  end.

(** [typeof v === 'number'] *)
Definition isNumber (v : value) : bool :=
  match v with
  | Num _ => true
  | _ => false
  end.

(** The global [isNaN]. *)
Definition isNaN (v : value) : bool := PrimFloat.is_nan (toNumber v).

(** [v < w], [v <= w], [v > w] on coerced operands. *)
Definition lt (v w : value) : bool := PrimFloat.ltb (toNumber v) (toNumber w).
Definition le (v w : value) : bool := PrimFloat.leb (toNumber v) (toNumber w).
Definition gt (v w : value) : bool := PrimFloat.ltb (toNumber w) (toNumber v).

(** [v / w] *)
Definition div (v w : value) : float := PrimFloat.div (toNumber v) (toNumber w).

(** [===] on two numbers. *)
Definition strictEq (x y : float) : bool := PrimFloat.eqb x y.

(** Truthiness of an instant read from [Date.now()] and kept in a
    nullable field: [null] and [0] are falsy. *)
Definition truthyInstant (t : option Z) : bool :=
  match t with
  | None => false
  | Some ms => negb (ms =? 0)
  end.

(** ToNumber of such a field, as [Date.now() - this.startTime] coerces
    it: [null] counts as [0]. *)
Definition instantToNumber (t : option Z) : Z :=
  match t with
  | None => 0
  | Some ms => ms
  end.

(** What a [TimerManager] is given as its callback, as far as
    [start()] and its interval handler tell the cases apart: a falsy
    value ([null], [undefined], ...), a function, an object that is not
    a function, or a truthy primitive (a non-empty string, a non-zero
    number, [true]). *)
Inductive callback : Type :=
| CbFalsy
| CbFunction
| CbObject
| CbPrimitive.

(** Truthiness of the callback. *)
Definition truthyCallback (cb : callback) : bool :=
  match cb with
  | CbFalsy => false
  | _ => true
  end.

(** Whether the callback is an object (functions are), which is what
    [new WeakRef(target)] accepts; on any other target it throws a
    [TypeError]. *)
Definition isObjectCallback (cb : callback) : bool :=
  match cb with
  | CbFunction | CbObject => true
  | _ => false
  end.

(** Whether [cb ? new WeakRef(cb) : null] throws. *)
Definition weakRefThrows (cb : callback) : bool :=
  truthyCallback cb && negb (isObjectCallback cb).

(** [typeof cb === 'function'] *)
Definition isFunctionCallback (cb : callback) : bool :=
  match cb with
  | CbFunction => true
  | _ => false
  end.

(** The whole number a float denotes, when it denotes one. *)
Definition toInteger (f : float) : option Z :=
  match Prim2SF f with
  | S754_zero _ => Some 0
  | S754_finite s m e =>
      let mag :=
        if 0 <=? e then Some (Z.pos m * 2 ^ e)
        else if (Z.pos m) mod (2 ^ (- e)) =? 0
             then Some (Z.pos m / 2 ^ (- e)) else None in
      option_map (fun n => if s then - n else n) mag
  | _ => None
  end.

(** The same, within the safe integers ([Number.isSafeInteger]), where
    the arithmetic on whole numbers is exact. *)
Definition toSafeInteger (f : float) : option Z :=
  match toInteger f with
  | Some n => if Z.abs n <? 2 ^ 53 then Some n else None
  | None => None
  end.

(** The float of a whole number (exact below 2^53). *)
Definition ofInteger (n : Z) : float :=
  if n <? 0 then PrimFloat.opp (PrimFloat.of_uint63 (Uint63.of_Z (- n)))
  else PrimFloat.of_uint63 (Uint63.of_Z n).

(** [Number.prototype.toString] on a whole number: decimal digits, with
    a minus sign when negative. *)
Definition toStringInteger (n : Z) : string :=
  NilZero.string_of_int (Z.to_int n).

(** The number a string of decimal digits denotes; [None] when the
    string is empty or holds another character.  It serves to state
    what a rendered field reads back to. *)
Definition decimalValue (s : string) : option Z :=
  option_map Z.of_uint (NilZero.uint_of_string s).

(** [String.prototype.padStart(targetLength, padChar)] for a padding
    string of one character. *)
Definition padStart (targetLength : nat) (padChar : ascii) (s : string) : string :=
  String.append
    (string_of_list_ascii (repeat padChar (targetLength - String.length s)))
    s.

End Js.

(** ** WageCounter: the earnings accumulator *)

Module WageCounter.

Record t : Type := mk {
  hourlyWage : Js.value;
  currentEarnings : float;
  elapsedSeconds : Js.value;
  isRunning : bool;
  perSecondWage : float;
  startTime : option Z;
  pausedTime : Z
}.

(** [constructor()] *)
Definition new : t :=
  {| hourlyWage := Js.Num 0;
     currentEarnings := 0%float;
     elapsedSeconds := Js.Num 0;
     isRunning := false;
     perSecondWage := 0%float;
     startTime := None;
     pausedTime := 0 |}.

(** [setHourlyWage(wage)] *)
Definition setHourlyWage (wage : Js.value) (w : t) : t :=
  let hw := if Js.lt wage (Js.Num 0) then Js.Num 0 else wage in
  {| hourlyWage := hw;
     currentEarnings := currentEarnings w;
     elapsedSeconds := elapsedSeconds w;
     isRunning := isRunning w;
     perSecondWage := Js.div hw (Js.Num 3600);
     startTime := startTime w;
     pausedTime := pausedTime w |}.

Definition getHourlyWage (w : t) : Js.value := hourlyWage w.
Definition getCurrentEarnings (w : t) : float := currentEarnings w.
Definition getElapsedTime (w : t) : Js.value := elapsedSeconds w.
Definition getPerSecondWage (w : t) : float := perSecondWage w.
Definition getIsRunning (w : t) : bool := isRunning w.

(** [setCurrentEarnings(earnings)] *)
Definition setCurrentEarnings (earnings : float) (w : t) : t :=
  {| hourlyWage := hourlyWage w;
     currentEarnings := earnings;
     elapsedSeconds := elapsedSeconds w;
     isRunning := isRunning w;
     perSecondWage := perSecondWage w;
     startTime := startTime w;
     pausedTime := pausedTime w |}.

(** [setElapsedTime(seconds)] *)
Definition setElapsedTime (seconds : Js.value) (w : t) : t :=
  {| hourlyWage := hourlyWage w;
     currentEarnings := currentEarnings w;
     elapsedSeconds := seconds;
     isRunning := isRunning w;
     perSecondWage := perSecondWage w;
     startTime := startTime w;
     pausedTime := pausedTime w |}.

(** [calculatePerSecondWage(hourlyWage)] *)
Definition calculatePerSecondWage (hw : Js.value) : float :=
  if negb (Js.isNumber hw) || Js.isNaN hw then 0%float
  else
    let validWage := if Js.lt hw (Js.Num 0) then Js.Num 0 else hw in
    Js.div validWage (Js.Num 3600).

(** [calculateEarningsForSeconds(seconds)] *)
Definition calculateEarningsForSeconds (seconds : Js.value) (w : t) : float :=
  if negb (Js.isNumber seconds) || Js.isNaN seconds
     || Js.lt seconds (Js.Num 0)
  then 0%float
  else
    let wage :=
      if PrimFloat.ltb (perSecondWage w) 0 then 0%float
      else perSecondWage w in
    PrimFloat.mul wage (Js.toNumber seconds).

(** [updateCurrentEarnings()] *)
Definition updateCurrentEarnings (w : t) : t :=
  setCurrentEarnings (calculateEarningsForSeconds (elapsedSeconds w) w) w.

(** [updateElapsedTime(elapsedSeconds)] *)
Definition updateElapsedTime (seconds : Js.value) (w : t) : t :=
  updateCurrentEarnings (setElapsedTime seconds w).

(** [start()]; [now] is the instant [new Date()] reads. *)
Definition start (now : Z) (w : t) : t :=
  if negb (isRunning w) then
    {| hourlyWage := hourlyWage w;
       currentEarnings := currentEarnings w;
       elapsedSeconds := elapsedSeconds w;
       isRunning := true;
       perSecondWage := perSecondWage w;
       startTime :=
         match startTime w with
         | None => Some now
         | Some d => Some d
         end;
       pausedTime := pausedTime w |}
  else w.

(** [stop()] *)
Definition stop (w : t) : t :=
  {| hourlyWage := hourlyWage w;
     currentEarnings := currentEarnings w;
     elapsedSeconds := elapsedSeconds w;
     isRunning := false;
     perSecondWage := perSecondWage w;
     startTime := startTime w;
     pausedTime := pausedTime w |}.

(** [reset()] *)
Definition reset (w : t) : t :=
  {| hourlyWage := hourlyWage w;
     currentEarnings := 0%float;
     elapsedSeconds := Js.Num 0;
     isRunning := false;
     perSecondWage := perSecondWage w;
     startTime := None;
     pausedTime := 0 |}.

(** [getElapsedTimeBreakdown()], on whole seconds: [Math.floor] of a
    quotient is floor division and [%] takes the sign of the dividend. *)
Definition breakdown (totalSeconds : Z) : Z * Z * Z :=
  (totalSeconds / 3600, Z.rem totalSeconds 3600 / 60, Z.rem totalSeconds 60).

(** The template literal of [getFormattedElapsedTime()]. *)
Definition formatHMS (totalSeconds : Z) : string :=
  let '(hours, minutes, seconds) := breakdown totalSeconds in
  String.append (Js.padStart 2 "0" (Js.toStringInteger hours))
    (String.append ":"
       (String.append (Js.padStart 2 "0" (Js.toStringInteger minutes))
          (String.append ":"
             (Js.padStart 2 "0" (Js.toStringInteger seconds))))).

(** A check used in the proofs about the rendering: the field of [k] has
    two characters and reads back as [k]. *)
Definition fieldOk (k : Z) : bool :=
  Nat.eqb (String.length (Js.padStart 2 "0" (Js.toStringInteger k))) 2
  && match Js.decimalValue (Js.padStart 2 "0" (Js.toStringInteger k)) with
     | Some v => (v =? k)%Z
     | None => false
     end.

(** [getFormattedElapsedTime()].  The result is given when
    [elapsedSeconds] holds a whole number (a safe integer), which is
    what the timer stores there; [None] stands for the other values,
    whose rendering needs the printer of fractional numbers. *)
Definition getFormattedElapsedTime (w : t) : option string :=
  match elapsedSeconds w with
  | Js.Num f => option_map formatHMS (Js.toSafeInteger f)
  | _ => None
  end.

(** [getElapsedTimeBreakdown()], on the same values as
    [getFormattedElapsedTime]. *)
Definition getElapsedTimeBreakdown (w : t) : option (Z * Z * Z) :=
  match elapsedSeconds w with
  | Js.Num f => option_map breakdown (Js.toSafeInteger f)
  | _ => None
  end.

End WageCounter.


(** ** The interval timers of the host: [setInterval] / [clearInterval] *)

Module Scheduler.

(** Handles are the positive integers the host hands out (never 0, so
    a handle kept in a field is truthy); [live] maps each pending
    repeating timer to its delay. *)
Record t : Type := mk {
  nextId : positive;
  live : gmap positive float
}.

Definition empty : t := {| nextId := 1%positive; live := ∅ |}.

(** [setInterval(handler, delay)]: a fresh handle, now pending. *)
Definition setInterval (delay : float) (s : t) : positive * t :=
  (nextId s,
   {| nextId := Pos.succ (nextId s);
      live := <[nextId s := delay]> (live s) |}).

(** [clearInterval(id)] *)
Definition clearInterval (id : positive) (s : t) : t :=
  {| nextId := nextId s; live := delete id (live s) |}.

Definition pending (id : positive) (s : t) : bool :=
  bool_decide (is_Some (live s !! id)).

End Scheduler.

(** ** TimerManager: the clock *)

Module TimerManager.

Record t : Type := mk {
  callback : Js.callback;
  intervalId : option positive;
  isRunning : bool;
  startTime : option Z;
  pausedTime : Z;
  updateInterval : float
}.

(** [constructor(callback)] *)
Definition new (cb : Js.callback) : t :=
  {| callback := cb;
     intervalId := None;
     isRunning := false;
     startTime := None;
     pausedTime := 0;
     updateInterval := 1000%float |}.

(** Whether [start()] ends in the [TypeError] of
    [new WeakRef(this.callback)]: the timer is not yet running and its
    callback is truthy but not an object. *)
Definition startThrows (tm : t) : bool :=
  negb (isRunning tm) && Js.weakRefThrows (callback tm).

(** [start()]; [now] is what [Date.now()] returns.  The result is the
    state the call leaves behind, whether it returns or throws
    ([startThrows] tells which): the running flag and the anchor are
    set before the weak reference is made, the interval after it. *)
Definition start (now : Z) (st : t * Scheduler.t) : t * Scheduler.t :=
  let '(tm, sch) := st in
  if isRunning tm then (tm, sch)
  else if Js.weakRefThrows (callback tm)
  then
    ({| callback := callback tm;
        intervalId := intervalId tm;
        isRunning := true;
        startTime := Some now;
        pausedTime := pausedTime tm;
        updateInterval := updateInterval tm |}, sch)
  else
    let '(id, sch') := Scheduler.setInterval (updateInterval tm) sch in
    ({| callback := callback tm;
        intervalId := Some id;
        isRunning := true;
        startTime := Some now;
        pausedTime := pausedTime tm;
        updateInterval := updateInterval tm |}, sch').

(** [stop()] *)
Definition stop (now : Z) (st : t * Scheduler.t) : t * Scheduler.t :=
  let '(tm, sch) := st in
  if negb (isRunning tm) then (tm, sch)
  else
    let paused :=
      if Js.truthyInstant (startTime tm)
      then pausedTime tm + (now - Js.instantToNumber (startTime tm))
      else pausedTime tm in
    let sch' :=
      match intervalId tm with
      | Some id => Scheduler.clearInterval id sch
      | None => sch
      end in
    ({| callback := callback tm;
        intervalId := None;
        isRunning := false;
        startTime := startTime tm;
        pausedTime := paused;
        updateInterval := updateInterval tm |}, sch').

(** [reset()] *)
Definition reset (now : Z) (st : t * Scheduler.t) : t * Scheduler.t :=
  let '(tm, sch) := if isRunning (fst st) then stop now st else st in
  ({| callback := callback tm;
      intervalId := intervalId tm;
      isRunning := false;
      startTime := None;
      pausedTime := 0;
      updateInterval := updateInterval tm |}, sch).

(** The local [totalElapsed] of [getElapsedSeconds()], in
    milliseconds. *)
Definition totalElapsed (now : Z) (tm : t) : Z :=
  if isRunning tm && Js.truthyInstant (startTime tm)
  then pausedTime tm + (now - Js.instantToNumber (startTime tm))
  else pausedTime tm.

(** [getElapsedSeconds()] *)
Definition getElapsedSeconds (now : Z) (tm : t) : Z :=
  totalElapsed now tm / 1000.

Definition getIsRunning (tm : t) : bool := isRunning tm.
Definition getUpdateInterval (tm : t) : float := updateInterval tm.

(** [setUpdateInterval(interval)].  When the timer is running the
    method reads the clock twice: [now] in [stop()], then [now'] in
    [start()]; it throws when that [start()] does. *)
Definition setUpdateInterval (interval : Js.value) (now now' : Z)
    (st : t * Scheduler.t) : t * Scheduler.t :=
  let '(tm, sch) := st in
  if Js.isNumber interval && Js.gt interval (Js.Num 0) then
    let tm1 :=
      {| callback := callback tm;
         intervalId := intervalId tm;
         isRunning := isRunning tm;
         startTime := startTime tm;
         pausedTime := pausedTime tm;
         updateInterval := Js.toNumber interval |} in
    if isRunning tm1 then start now' (stop now (tm1, sch))
    else (tm1, sch)
  else (tm, sch).

(** One firing of the handler installed by [start()] under handle
    [id]; [callbackAlive] tells whether the weak reference still gives
    the callback.  A function is called (the application's closure
    reads the timer and leaves it as it is; an exception it raises is
    caught); when the reference gives no function, because it was
    emptied or because the callback is an object that is not a
    function, the handler calls [stop()].  Without a weak reference
    (falsy callback) the handler does nothing. *)
Definition fire (id : positive) (callbackAlive : bool) (now : Z)
    (st : t * Scheduler.t) : t * Scheduler.t :=
  if Scheduler.pending id (snd st) then
    if Js.truthyCallback (callback (fst st))
       && Js.isObjectCallback (callback (fst st))
    then
      if callbackAlive && Js.isFunctionCallback (callback (fst st))
      then st
      else stop now st
    else st
  else st.

(** [getElapsedTimeBreakdown()] *)
Definition getElapsedTimeBreakdown (now : Z) (tm : t) : Z * Z * Z :=
  let totalSeconds := getElapsedSeconds now tm in
  (totalSeconds / 3600, Z.rem totalSeconds 3600 / 60, Z.rem totalSeconds 60).

(** [getFormattedElapsedTime()] *)
Definition getFormattedElapsedTime (now : Z) (tm : t) : string :=
  let '(hours, minutes, seconds) := getElapsedTimeBreakdown now tm in
  String.append (Js.padStart 2 "0" (Js.toStringInteger hours))
    (String.append ":"
       (String.append (Js.padStart 2 "0" (Js.toStringInteger minutes))
          (String.append ":"
             (Js.padStart 2 "0" (Js.toStringInteger seconds))))).

End TimerManager.

(** ** WageCounterApp: the coordinator *)

Module App.

(** What [storageManager.loadSettings('hourlyWage', 0)] followed by
    [validator.validateWage] yields when the application initializes:
    no value ([null] or [undefined]), a value the validator accepts, or
    one it rejects.  An empty storage yields the default, the accepted
    value 0.  Storage and validation are collaborators of the core. *)
Inductive savedWage : Type :=
| NoSavedValue
| SavedValid (value : float)
| SavedInvalid.

Record t : Type := mk {
  wageCounter : WageCounter.t;
  timerManager : option TimerManager.t;
  isInitialized : bool
}.

(** [constructor()] *)
Definition new : t :=
  {| wageCounter := WageCounter.new;
     timerManager := None;
     isInitialized := false |}.

(** [setHourlyWage(wage)] *)
Definition setHourlyWage (wage : Js.value) (app : t) : t :=
  {| wageCounter := WageCounter.setHourlyWage wage (wageCounter app);
     timerManager := timerManager app;
     isInitialized := isInitialized app |}.

(** [loadSavedSettings()], as far as it touches the core. *)
Definition loadSavedSettings (saved : savedWage) (app : t) : t :=
  match saved with
  | SavedValid v => setHourlyWage (Js.Num v) app
  | SavedInvalid => setHourlyWage (Js.Num 0) app
  | NoSavedValue => app
  end.

(** [initialize()]; the timer is given the closure that calls
    [updateEarnings()]. *)
Definition initialize (saved : savedWage) (app : t) : t :=
  if isInitialized app then app
  else
    let app1 :=
      {| wageCounter := wageCounter app;
         timerManager := Some (TimerManager.new Js.CbFunction);
         isInitialized := isInitialized app |} in
    let app2 := loadSavedSettings saved app1 in
    {| wageCounter := wageCounter app2;
       timerManager := timerManager app2;
       isInitialized := true |}.

(** The methods below dereference [this.timerManager]; [None] as a
    result is the [TypeError] of doing so on [null]. *)

(** [start()]; [nowC] is read by the counter ([new Date()]), [nowT] by
    the timer ([Date.now()]).  The [TypeError] of the timer's
    [start()] passes through. *)
Definition start (saved : savedWage) (nowC nowT : Z)
    (st : t * Scheduler.t) : option (bool * (t * Scheduler.t)) :=
  let '(app0, sch) := st in
  let app := if negb (isInitialized app0) then initialize saved app0 else app0 in
  if negb (isInitialized app0) && negb (bool_decide (is_Some (timerManager app)))
  then Some (false, (app, sch))
  else if Js.le (WageCounter.getHourlyWage (wageCounter app)) (Js.Num 0)
  then Some (false, (app, sch))
  else
    match timerManager app with
    | None => None
    | Some tm =>
        let wc := WageCounter.start nowC (wageCounter app) in
        if TimerManager.startThrows tm then None
        else
          let '(tm', sch') := TimerManager.start nowT (tm, sch) in
          Some (true,
                ({| wageCounter := wc;
                    timerManager := Some tm';
                    isInitialized := isInitialized app |}, sch'))
    end.

(** [stop()] *)
Definition stop (now : Z) (st : t * Scheduler.t) : option (t * Scheduler.t) :=
  let '(app, sch) := st in
  if negb (isInitialized app) then Some (app, sch)
  else
    match timerManager app with
    | None => None
    | Some tm =>
        let '(tm', sch') := TimerManager.stop now (tm, sch) in
        Some ({| wageCounter := WageCounter.stop (wageCounter app);
                 timerManager := Some tm';
                 isInitialized := isInitialized app |}, sch')
    end.

(** [reset()] *)
Definition reset (now : Z) (st : t * Scheduler.t) : option (t * Scheduler.t) :=
  let '(app, sch) := st in
  if negb (isInitialized app) then Some (app, sch)
  else
    match timerManager app with
    | None => None
    | Some tm =>
        let '(tm', sch') := TimerManager.reset now (tm, sch) in
        Some ({| wageCounter := WageCounter.reset (wageCounter app);
                 timerManager := Some tm';
                 isInitialized := isInitialized app |}, sch')
    end.

(** [updateEarnings()], the tick callback.  [testWageOverride] is
    [Some v] when the page runs in test mode with
    [window.testWageOverride] set to [v]. *)
Definition updateEarnings (testWageOverride : option Js.value) (now : Z)
    (app : t) : option t :=
  if negb (isInitialized app) then Some app
  else
    match timerManager app with
    | None => None
    | Some tm =>
        let elapsedSeconds := Js.Num (Js.ofInteger (TimerManager.getElapsedSeconds now tm)) in
        let wc := WageCounter.updateElapsedTime elapsedSeconds (wageCounter app) in
        let currentHourlyWage := WageCounter.getHourlyWage wc in
        let wc' :=
          if Js.le (Js.Num 0) currentHourlyWage then
            let perSecondWage :=
              match testWageOverride with
              | Some v => Js.div v (Js.Num 3600)
              | None => Js.div currentHourlyWage (Js.Num 3600)
              end in
            WageCounter.setCurrentEarnings
              (PrimFloat.mul perSecondWage (Js.toNumber elapsedSeconds)) wc
          else WageCounter.setCurrentEarnings 0%float wc in
        Some {| wageCounter := wc';
                timerManager := timerManager app;
                isInitialized := isInitialized app |}
    end.

(** The object [getState()] returns. *)
Record state : Type := mkState {
  st_isRunning : bool;
  st_hourlyWage : Js.value;
  st_currentEarnings : float;
  st_elapsedSeconds : Js.value;
  st_formattedElapsedTime : option string;
  st_perSecondWage : float
}.

(** [getState()] *)
Definition getState (app : t) : state :=
  {| st_isRunning := WageCounter.getIsRunning (wageCounter app);
     st_hourlyWage := WageCounter.getHourlyWage (wageCounter app);
     st_currentEarnings := WageCounter.getCurrentEarnings (wageCounter app);
     st_elapsedSeconds := WageCounter.getElapsedTime (wageCounter app);
     st_formattedElapsedTime := WageCounter.getFormattedElapsedTime (wageCounter app);
     st_perSecondWage := WageCounter.getPerSecondWage (wageCounter app) |}.

(** [isStateSynchronized()] *)
Definition isStateSynchronized (app : t) : option bool :=
  if negb (isInitialized app) then Some true
  else
    match timerManager app with
    | None => None
    | Some tm =>
        Some (Bool.eqb (TimerManager.getIsRunning tm)
                       (WageCounter.getIsRunning (wageCounter app)))
    end.

(** Whether the clock of the application is running; a missing timer is
    not. *)
Definition timerRunning (app : t) : bool :=
  match timerManager app with
  | None => false
  | Some tm => TimerManager.getIsRunning tm
  end.

End App.

(** ** Histories of the clock *)

Module History.

(** The calls a timer receives, each with the instants its reads of
    [Date.now()] return. *)
Inductive op : Type :=
| Start (now : Z)
| Stop (now : Z)
| Reset (now : Z)
| SetUpdateInterval (interval : Js.value) (now now' : Z)
| Fire (id : positive) (callbackAlive : bool) (now : Z).

Definition step (o : op) (st : TimerManager.t * Scheduler.t)
    : TimerManager.t * Scheduler.t :=
  match o with
  | Start now => TimerManager.start now st
  | Stop now => TimerManager.stop now st
  | Reset now => TimerManager.reset now st
  | SetUpdateInterval interval now now' =>
      TimerManager.setUpdateInterval interval now now' st
  | Fire id alive now => TimerManager.fire id alive now st
  end.

Definition run (ops : list op) (st : TimerManager.t * Scheduler.t)
    : TimerManager.t * Scheduler.t :=
  fold_left (fun acc o => step o acc) ops st.

Definition firstRead (o : op) : Z :=
  match o with
  | Start now | Stop now | Reset now => now
  | SetUpdateInterval _ now _ => now
  | Fire _ _ now => now
  end.

Definition lastRead (o : op) : Z :=
  match o with
  | Start now | Stop now | Reset now => now
  | SetUpdateInterval _ _ now' => now'
  | Fire _ _ now => now
  end.

Definition isReset (o : op) : bool :=
  match o with
  | Reset _ => true
  | _ => false
  end.

(** The wall clock does not run backwards along the history, starting
    from instant [from]. *)
Fixpoint chronological (from : Z) (ops : list op) : Prop :=
  match ops with
  | [] => True
  | o :: rest =>
      from <= firstRead o /\ firstRead o <= lastRead o
      /\ chronological (lastRead o) rest
  end.

(** The instant of the last read of the history. *)
Fixpoint endOf (from : Z) (ops : list op) : Z :=
  match ops with
  | [] => from
  | o :: rest => endOf (lastRead o) rest
  end.

(** The timer holds a handle exactly when it runs, and the handle it
    holds is pending in the scheduler. *)
Definition handleInvariant (st : TimerManager.t * Scheduler.t) : Prop :=
  (TimerManager.isRunning (fst st) = true
   <-> TimerManager.intervalId (fst st) <> None)
  /\ (forall id, TimerManager.intervalId (fst st) = Some id ->
                 Scheduler.pending id (snd st) = true).

(** The pending timers are exactly the one of the handle held, with the
    current delay. *)
Definition soleInterval (st : TimerManager.t * Scheduler.t) : Prop :=
  Scheduler.live (snd st) =
  match TimerManager.intervalId (fst st) with
  | Some id => {[ id := TimerManager.updateInterval (fst st) ]}
  | None => ∅
  end.

End History.

(** ** The copy of the classes in the Node test runner

    [test-integration-runner.js] carries its own copy of the classes.
    Two of its methods differ from the application's. *)

Module RunnerCopy.

(** [WageCounter.setHourlyWage(wage)] of the runner: no clamp. *)
Definition setHourlyWage (wage : Js.value) (w : WageCounter.t) : WageCounter.t :=
  {| WageCounter.hourlyWage := wage;
     WageCounter.currentEarnings := WageCounter.currentEarnings w;
     WageCounter.elapsedSeconds := WageCounter.elapsedSeconds w;
     WageCounter.isRunning := WageCounter.isRunning w;
     WageCounter.perSecondWage := Js.div wage (Js.Num 3600);
     WageCounter.startTime := WageCounter.startTime w;
     WageCounter.pausedTime := WageCounter.pausedTime w |}.

(** [TimerManager.start()] of the runner: the handler reads
    [this.callback] itself, no weak reference is made, and the call
    never throws. *)
Definition timerStart (now : Z) (st : TimerManager.t * Scheduler.t)
    : TimerManager.t * Scheduler.t :=
  let '(tm, sch) := st in
  if TimerManager.isRunning tm then (tm, sch)
  else
    let '(id, sch') :=
      Scheduler.setInterval (TimerManager.updateInterval tm) sch in
    ({| TimerManager.callback := TimerManager.callback tm;
        TimerManager.intervalId := Some id;
        TimerManager.isRunning := true;
        TimerManager.startTime := Some now;
        TimerManager.pausedTime := TimerManager.pausedTime tm;
        TimerManager.updateInterval := TimerManager.updateInterval tm |}, sch').

(** [WageCounterApp.initialize()] of the runner: no saved settings. *)
Definition initialize (app : App.t) : App.t :=
  if App.isInitialized app then app
  else
    {| App.wageCounter := App.wageCounter app;
       App.timerManager := Some (TimerManager.new Js.CbFunction);
       App.isInitialized := true |}.

(** [WageCounterApp.start()] of the runner: no check of the wage, no
    return value. *)
Definition start (nowC nowT : Z) (st : App.t * Scheduler.t)
    : option (App.t * Scheduler.t) :=
  let '(app0, sch) := st in
  let app := if negb (App.isInitialized app0) then initialize app0 else app0 in
  match App.timerManager app with
  | None => None
  | Some tm =>
      let wc := WageCounter.start nowC (App.wageCounter app) in
      let '(tm', sch') := timerStart nowT (tm, sch) in
      Some ({| App.wageCounter := wc;
               App.timerManager := Some tm';
               App.isInitialized := App.isInitialized app |}, sch')
  end.

(** [WageCounter.calculatePerSecondWage(hourlyWage)] of the runner: one
    guard for the three rejections. *)
Definition calculatePerSecondWage (hw : Js.value) : float :=
  if negb (Js.isNumber hw) || Js.isNaN hw || Js.lt hw (Js.Num 0)
  then 0%float
  else Js.div hw (Js.Num 3600).

(** [WageCounter.calculateEarningsForSeconds(seconds)] of the runner: no
    clamp of the rate. *)
Definition calculateEarningsForSeconds (seconds : Js.value)
    (w : WageCounter.t) : float :=
  if negb (Js.isNumber seconds) || Js.isNaN seconds
     || Js.lt seconds (Js.Num 0)
  then 0%float
  else PrimFloat.mul (WageCounter.perSecondWage w) (Js.toNumber seconds).

(** [WageCounter.updateElapsedTime(elapsedSeconds)] of the runner, with
    its [updateCurrentEarnings()]. *)
Definition updateElapsedTime (seconds : Js.value) (w : WageCounter.t)
    : WageCounter.t :=
  let w1 := WageCounter.setElapsedTime seconds w in
  WageCounter.setCurrentEarnings
    (calculateEarningsForSeconds (WageCounter.elapsedSeconds w1) w1) w1.

End RunnerCopy.

(** ** Reachable states of the accumulator *)

Module Reach.

(** The calls on a [WageCounter] that carry its logic.  The raw setters
    ([setCurrentEarnings], [setElapsedTime], [setIsRunning],
    [setStartTime], [setPausedTime]) store the value they are given and
    are left out of the histories considered here. *)
Inductive call : Type :=
| SetHourlyWage (wage : Js.value)
| UpdateElapsedTime (seconds : Js.value)
| Start (now : Z)
| Stop
| Reset.

Definition apply (c : call) (w : WageCounter.t) : WageCounter.t :=
  match c with
  | SetHourlyWage wage => WageCounter.setHourlyWage wage w
  | UpdateElapsedTime seconds => WageCounter.updateElapsedTime seconds w
  | Start now => WageCounter.start now w
  | Stop => WageCounter.stop w
  | Reset => WageCounter.reset w
  end.

(** The state after a sequence of calls on a fresh counter. *)
Definition after (calls : list call) : WageCounter.t :=
  fold_left (fun w c => apply c w) calls WageCounter.new.

(** [seconds] passes the guard of [calculateEarningsForSeconds]: a
    number, not NaN, not negative. *)
Definition validSeconds (seconds : Js.value) : bool :=
  Js.isNumber seconds && negb (Js.isNaN seconds)
  && negb (Js.lt seconds (Js.Num 0)).

(** The stored earnings are the product of the stored rate and the
    stored elapsed seconds. *)
Definition consistent (w : WageCounter.t) : Prop :=
  WageCounter.currentEarnings w
  = PrimFloat.mul (WageCounter.perSecondWage w)
      (Js.toNumber (WageCounter.elapsedSeconds w)).

End Reach.

(** ** The runner's accumulator under the same calls *)

Module RunnerReach.

Definition apply (c : Reach.call) (w : WageCounter.t) : WageCounter.t :=
  match c with
  | Reach.SetHourlyWage wage => RunnerCopy.setHourlyWage wage w
  | Reach.UpdateElapsedTime seconds => RunnerCopy.updateElapsedTime seconds w
  | Reach.Start now => WageCounter.start now w
  | Reach.Stop => WageCounter.stop w
  | Reach.Reset => WageCounter.reset w
  end.

Definition after (calls : list Reach.call) : WageCounter.t :=
  fold_left (fun w c => apply c w) calls WageCounter.new.

(** The wages set along the calls are numbers that are not negative:
    what the validator lets through. *)
Definition validatedWage (c : Reach.call) : bool :=
  match c with
  | Reach.SetHourlyWage (Js.Num r) => PrimFloat.leb 0 r
  | Reach.SetHourlyWage _ => false
  | _ => true
  end.

(** The call is not [reset()]. *)
Definition keepsSession (c : Reach.call) : bool :=
  match c with
  | Reach.Reset => false
  | _ => true
  end.

End RunnerReach.

(** ** Histories of the coordinator *)

Module AppHistory.

Inductive op : Type :=
| Initialize (saved : App.savedWage)
| SetHourlyWage (wage : Js.value)
| Start (saved : App.savedWage) (nowC nowT : Z)
| Stop (now : Z)
| Reset (now : Z)
| UpdateEarnings (testWageOverride : option Js.value) (now : Z).

(** One call; [None] is the [TypeError] of a method. *)
Definition step (o : op) (st : App.t * Scheduler.t)
    : option (App.t * Scheduler.t) :=
  match o with
  | Initialize saved => Some (App.initialize saved (fst st), snd st)
  | SetHourlyWage wage => Some (App.setHourlyWage wage (fst st), snd st)
  | Start saved nowC nowT => option_map snd (App.start saved nowC nowT st)
  | Stop now => App.stop now st
  | Reset now => App.reset now st
  | UpdateEarnings override now =>
      option_map (fun app => (app, snd st)) (App.updateEarnings override now (fst st))
  end.

Fixpoint run (ops : list op) (st : App.t * Scheduler.t)
    : option (App.t * Scheduler.t) :=
  match ops with
  | [] => Some st
  | o :: rest =>
      match step o st with
      | Some st' => run rest st'
      | None => None
      end
  end.

(** Before initialization there is no timer and the counter is stopped;
    after it there is a timer, with the closure as its callback, it
    runs exactly when the counter does, and it holds an interval handle
    exactly when it runs. *)
Definition wellFormed (st : App.t * Scheduler.t) : Prop :=
  if App.isInitialized (fst st) then
    exists tm,
      App.timerManager (fst st) = Some tm
      /\ TimerManager.isRunning tm
         = WageCounter.isRunning (App.wageCounter (fst st))
      /\ TimerManager.callback tm = Js.CbFunction
      /\ History.handleInvariant (tm, snd st)
  else
    App.timerManager (fst st) = None
    /\ WageCounter.isRunning (App.wageCounter (fst st)) = false.

End AppHistory.

(** ** Clock histories with a healthy anchor *)

Module Healthy.

(** The accumulated time is not negative and, while the timer runs, its
    anchor is not in the future of instant [now]. *)
Definition inv (now : Z) (tm : TimerManager.t) : Prop :=
  0 <= TimerManager.pausedTime tm
  /\ (TimerManager.isRunning tm = true ->
      Js.instantToNumber (TimerManager.startTime tm) <= now).

End Healthy.

(** * Properties *)

(** ** Facts of binary64 arithmetic used below *)

Section FloatFacts.

Local Open Scope float_scope.

Lemma leb_zero_not_ltb (x : float) :
  (0 <=? x) = true -> (x <? 0) = false.
Proof.
  rewrite leb_spec, ltb_spec.
  change (Prim2SF 0) with (S754_zero false).
  destruct (Prim2SF x) as [s|s| |s m e]; try destruct s; cbn; congruence.
Qed.

Lemma round_keeps_sign_nonneg (mz ez : Z) (lz : location) :
  SFltb (binary_round_aux prec emax false mz ez lz) (S754_zero false) = false.
Proof.
  unfold binary_round_aux.
  destruct (shr_fexp prec emax mz ez lz) as [mrs' e'].
  destruct (shr_fexp _ _ _ _ _) as [mrs'' e''].
  destruct (shr_m mrs''); [reflexivity| |reflexivity].
  destruct (_ <=? _)%Z; reflexivity.
Qed.

(** Dividing by 3600 never turns a value that is not negative into a
    negative one. *)
Lemma div_3600_not_ltb (x : float) :
  (x <? 0) = false -> (x / 3600 <? 0) = false.
Proof.
  rewrite !ltb_spec, div_spec.
  change (Prim2SF 0) with (S754_zero false).
  set (y := Prim2SF 3600). cbv in y. subst y.
  destruct (Prim2SF x) as [s|s| |s m e]; try destruct s;
    cbn -[SFdiv_core_binary binary_round_aux]; try congruence.
  intros _.
  destruct (SFdiv_core_binary _ _ _ _ _ _) as [[mz ez] lz].
  apply round_keeps_sign_nonneg.
Qed.

End FloatFacts.

(** ** The accumulator *)

Section AccumulatorProperties.

Import WageCounter.

Lemma setHourlyWage_rate_of_nonneg (r : float) (w : t) :
  PrimFloat.leb 0 r = true ->
  getPerSecondWage (setHourlyWage (Js.Num r) w) = PrimFloat.div r 3600.
Proof.
  intros Hr. unfold getPerSecondWage, setHourlyWage, Js.lt, Js.div; simpl.
  rewrite (leb_zero_not_ltb r Hr). reflexivity.
Qed.

Lemma setHourlyWage_rate_of_negative (r : float) (w : t) :
  PrimFloat.ltb r 0 = true ->
  getPerSecondWage (setHourlyWage (Js.Num r) w) = 0%float.
Proof.
  intros Hr. unfold getPerSecondWage, setHourlyWage, Js.lt, Js.div; simpl.
  rewrite Hr. reflexivity.
Qed.

(** The rate stored by [setHourlyWage] is never negative. *)
Lemma setHourlyWage_rate_not_negative (wage : Js.value) (w : t) :
  PrimFloat.ltb (perSecondWage (setHourlyWage wage w)) 0 = false.
Proof.
  unfold setHourlyWage, Js.lt, Js.div; simpl.
  destruct (PrimFloat.ltb (Js.toNumber wage) 0) eqn:Hlt.
  - reflexivity.
  - apply div_3600_not_ltb. exact Hlt.
Qed.

Lemma apply_rate_not_negative (c : Reach.call) (w : t) :
  PrimFloat.ltb (perSecondWage w) 0 = false ->
  PrimFloat.ltb (perSecondWage (Reach.apply c w)) 0 = false.
Proof.
  intros Hw. destruct c; cbn [Reach.apply].
  - apply setHourlyWage_rate_not_negative.
  - exact Hw.
  - unfold start. destruct (negb (isRunning w)); exact Hw.
  - exact Hw.
  - exact Hw.
Qed.

Lemma reachable_rate_not_negative (calls : list Reach.call) :
  PrimFloat.ltb (perSecondWage (Reach.after calls)) 0 = false.
Proof.
  unfold Reach.after.
  assert (Hnew : PrimFloat.ltb (perSecondWage new) 0 = false) by reflexivity.
  revert Hnew. generalize new as w.
  induction calls as [|c calls IH]; intros w Hw; simpl.
  - exact Hw.
  - apply IH, apply_rate_not_negative, Hw.
Qed.

Lemma validSeconds_guard (s : Js.value) :
  Reach.validSeconds s = true ->
  negb (Js.isNumber s) || Js.isNaN s || Js.lt s (Js.Num 0) = false.
Proof.
  unfold Reach.validSeconds.
  destruct (Js.isNumber s), (Js.isNaN s), (Js.lt s (Js.Num 0)); simpl; congruence.
Qed.

Lemma invalidSeconds_guard (s : Js.value) :
  Reach.validSeconds s = false ->
  negb (Js.isNumber s) || Js.isNaN s || Js.lt s (Js.Num 0) = true.
Proof.
  unfold Reach.validSeconds.
  destruct (Js.isNumber s), (Js.isNaN s), (Js.lt s (Js.Num 0)); simpl; congruence.
Qed.

(** C9: with an hourly wage of 2500, the earnings for 28800 seconds are
    the binary64 value 20000 itself: (2500 / 3600) * 28800 rounds to
    exactly 20000, both as the value [calculateEarningsForSeconds]
    returns and as the [currentEarnings] stored by
    [updateElapsedTime]. *)
Theorem eight_hours_at_2500_is_20000 :
  let w := WageCounter.setHourlyWage (Js.Num 2500) WageCounter.new in
  WageCounter.calculateEarningsForSeconds (Js.Num 28800) w = 20000%float
  /\ WageCounter.getCurrentEarnings
       (WageCounter.updateElapsedTime (Js.Num 28800) w) = 20000%float
  /\ Js.strictEq
       (WageCounter.getCurrentEarnings
          (WageCounter.updateElapsedTime (Js.Num 28800) w)) 20000 = true.
Proof. repeat split; reflexivity. Qed.

(** C4, at the input that breaks it: [setHourlyWage(NaN)] does not clamp.
    [NaN < 0] is false, so NaN is stored as the hourly wage and the
    per-second rate becomes [NaN / 3600], which is NaN and not 0.  The
    same happens for [undefined] and for an object. *)
Theorem setHourlyWage_NaN_not_clamped (w : t) :
  getPerSecondWage (setHourlyWage (Js.Num nan) w) = nan
  /\ Js.strictEq (getPerSecondWage (setHourlyWage (Js.Num nan) w)) 0 = false
  /\ getHourlyWage (setHourlyWage (Js.Num nan) w) = Js.Num nan
  /\ getPerSecondWage (setHourlyWage Js.Undefined w) = nan
  /\ getPerSecondWage (setHourlyWage Js.Obj w) = nan.
Proof. repeat split; reflexivity. Qed.

(** The sibling [calculatePerSecondWage] does guard against NaN and
    against values that are not numbers. *)
Lemma calculatePerSecondWage_guards :
  calculatePerSecondWage (Js.Num nan) = 0%float
  /\ calculatePerSecondWage Js.Undefined = 0%float
  /\ calculatePerSecondWage Js.Obj = 0%float
  /\ calculatePerSecondWage (Js.Num (-100)) = 0%float.
Proof. repeat split; reflexivity. Qed.

(** The runner's copy of [setHourlyWage] does not clamp a negative wage
    either. *)
Lemma runner_setHourlyWage_negative :
  PrimFloat.ltb
    (getPerSecondWage (RunnerCopy.setHourlyWage (Js.Num (-100)) new)) 0 = true.
Proof. reflexivity. Qed.

(** C3, as stated, fails: an invalid argument does replace the stored
    [elapsedSeconds].  After 10 seconds at 3600 per hour,
    [updateElapsedTime(-5)] leaves [elapsedSeconds = -5]. *)
Lemma updateElapsedTime_invalid_keeps_elapsed_fails :
  ~ (forall (w : t) (s : Js.value),
        Reach.validSeconds s = false ->
        calculateEarningsForSeconds s w = 0%float
        /\ elapsedSeconds (updateElapsedTime s w) = elapsedSeconds w).
Proof.
  intros H.
  destruct (H (updateElapsedTime (Js.Num 10) (setHourlyWage (Js.Num 3600) new))
              (Js.Num (-5)) eq_refl) as [_ Habs].
  vm_compute in Habs. discriminate Habs.
Qed.

(** C3, amended: for every state and every argument [s] that is
    negative, NaN or not a number, the earnings computed for [s] are 0
    and [updateElapsedTime(s)] sets [currentEarnings] to 0, but it
    stores [s] itself as [elapsedSeconds]; the wage, the rate and the
    running flag are untouched. *)
Theorem updateElapsedTime_invalid_seconds (w : t) (s : Js.value) :
  Reach.validSeconds s = false ->
  calculateEarningsForSeconds s w = 0%float
  /\ getCurrentEarnings (updateElapsedTime s w) = 0%float
  /\ getElapsedTime (updateElapsedTime s w) = s
  /\ getHourlyWage (updateElapsedTime s w) = getHourlyWage w
  /\ getPerSecondWage (updateElapsedTime s w) = getPerSecondWage w
  /\ getIsRunning (updateElapsedTime s w) = getIsRunning w.
Proof.
  intros Hs. apply invalidSeconds_guard in Hs.
  unfold updateElapsedTime, updateCurrentEarnings, calculateEarningsForSeconds.
  simpl. rewrite Hs. repeat split; reflexivity.
Qed.

Lemma updateElapsedTime_invalid_seconds_witness :
  Reach.validSeconds (Js.Num (-5)) = false
  /\ getCurrentEarnings (updateElapsedTime (Js.Num (-5)) new) = 0%float
  /\ getElapsedTime (updateElapsedTime (Js.Num (-5)) new) = Js.Num (-5).
Proof.
  split; [reflexivity|].
  destruct (updateElapsedTime_invalid_seconds new (Js.Num (-5)) eq_refl)
    as (_ & He & Hs & _).
  split; [exact He | exact Hs].
Defined.

Lemma start_consistent (now : Z) (w : t) :
  Reach.consistent w -> Reach.consistent (start now w).
Proof.
  unfold Reach.consistent, start.
  destruct (negb (isRunning w)); simpl; auto.
Qed.

(** C2, as stated, fails: [setHourlyWage] leaves [currentEarnings] as it
    was.  With 3600 per hour and 10 seconds elapsed the earnings are 10;
    after [setHourlyWage(7200)] the rate is 2 and the elapsed time still
    10, but the earnings are still 10, not 20. *)
Lemma earnings_stale_after_setHourlyWage :
  let w := Reach.after [Reach.SetHourlyWage (Js.Num 3600);
                        Reach.UpdateElapsedTime (Js.Num 10);
                        Reach.SetHourlyWage (Js.Num 7200)] in
  getCurrentEarnings w = 10%float
  /\ PrimFloat.mul (getPerSecondWage w) (Js.toNumber (getElapsedTime w)) = 20%float
  /\ ~ Reach.consistent w.
Proof.
  split; [reflexivity|]. split; [reflexivity|].
  unfold Reach.consistent. intros H.
  apply (f_equal (fun x => PrimFloat.eqb x 10)) in H.
  vm_compute in H. discriminate H.
Qed.

(** C2, amended: on every state reachable from a fresh counter through
    [setHourlyWage], [updateElapsedTime], [start], [stop] and [reset],
    right after [updateElapsedTime(s)] with [s] a number that is not
    negative, [currentEarnings] is exactly [perSecondWage *
    elapsedSeconds]; [start] and [stop] keep that equality.
    [setHourlyWage] recomputes [perSecondWage] only: [currentEarnings]
    and [elapsedSeconds] stay as they were until the next
    [updateElapsedTime]. *)
Theorem earnings_recomputed_on_update (calls : list Reach.call) (s : Js.value) :
  Reach.validSeconds s = true ->
  let w := updateElapsedTime s (Reach.after calls) in
  Reach.consistent w
  /\ getElapsedTime w = s
  /\ (forall now, Reach.consistent (start now w))
  /\ Reach.consistent (stop w)
  /\ (forall wage,
        getCurrentEarnings (setHourlyWage wage w) = getCurrentEarnings w
        /\ getElapsedTime (setHourlyWage wage w) = getElapsedTime w).
Proof.
  intros Hs w.
  assert (Hw : Reach.consistent w).
  { subst w. unfold Reach.consistent, updateElapsedTime, updateCurrentEarnings,
      calculateEarningsForSeconds. simpl.
    rewrite (validSeconds_guard s Hs).
    rewrite (reachable_rate_not_negative calls). reflexivity. }
  split; [exact Hw|]. split; [reflexivity|].
  split; [intros now; apply start_consistent, Hw|].
  split; [exact Hw|].
  intros wage. split; reflexivity.
Qed.

Lemma earnings_recomputed_on_update_witness :
  Reach.validSeconds (Js.Num 10) = true
  /\ Reach.consistent
       (updateElapsedTime (Js.Num 10)
          (Reach.after [Reach.SetHourlyWage (Js.Num 3600)])).
Proof.
  split; [reflexivity|].
  exact (proj1 (earnings_recomputed_on_update
                  [Reach.SetHourlyWage (Js.Num 3600)] (Js.Num 10) eq_refl)).
Defined.

End AccumulatorProperties.

(** ** The clock *)

Section ClockProperties.

Import TimerManager.

(** C5, as stated, fails: [stop()] does not clear the anchor.  A fresh
    timer started at instant 1000 and stopped at 2000 still has
    [startTime = 1000]. *)
Lemma stop_clears_anchor_fails :
  ~ (forall (now : Z) (st : t * Scheduler.t),
        isRunning (fst st) = true ->
        startTime (fst (stop now st)) = None).
Proof.
  intros H.
  specialize (H 2000 (start 1000 (new Js.CbFunction, Scheduler.empty)) eq_refl).
  vm_compute in H. discriminate H.
Qed.

(** C5, amended: [stop()] is a no-op when the timer is not running.
    When it is running, [stop()] adds [Date.now() - startTime] to
    [pausedTime] (nothing when [startTime] is null or 0), sets
    [isRunning] to false, sets [intervalId] to null after clearing the
    interval, so that the handle is no longer pending, and leaves
    [startTime] and [updateInterval] as they were: the anchor is kept,
    not cleared. *)
Theorem stop_effect (now : Z) (tm : t) (sch : Scheduler.t) :
  (isRunning tm = false -> stop now (tm, sch) = (tm, sch))
  /\ (isRunning tm = true ->
      let '(tm', sch') := stop now (tm, sch) in
      isRunning tm' = false
      /\ pausedTime tm' =
           (if Js.truthyInstant (startTime tm)
            then pausedTime tm + (now - Js.instantToNumber (startTime tm))
            else pausedTime tm)
      /\ startTime tm' = startTime tm
      /\ updateInterval tm' = updateInterval tm
      /\ intervalId tm' = None
      /\ (forall id, intervalId tm = Some id ->
                     Scheduler.pending id sch' = false)
      /\ (intervalId tm = None -> sch' = sch)).
Proof.
  split; intros Hrun; unfold stop; rewrite Hrun; simpl.
  - reflexivity.
  - repeat split.
    + intros id Hid. rewrite Hid. unfold Scheduler.pending, Scheduler.clearInterval.
      simpl. apply bool_decide_eq_false. rewrite lookup_delete_eq.
      intros [x Hx]. discriminate Hx.
    + intros Hid. rewrite Hid. reflexivity.
Qed.

Lemma stop_effect_witness :
  let st := start 1000 (new Js.CbFunction, Scheduler.empty) in
  isRunning (fst st) = true
  /\ isRunning (fst (stop 2500 st)) = false
  /\ pausedTime (fst (stop 2500 st)) = 1500
  /\ startTime (fst (stop 2500 st)) = Some 1000
  /\ intervalId (fst (stop 2500 st)) = None.
Proof.
  split; [reflexivity|].
  pose proof (proj2 (stop_effect 2500
                       (fst (start 1000 (new Js.CbFunction, Scheduler.empty)))
                       (snd (start 1000 (new Js.CbFunction, Scheduler.empty))))
                eq_refl) as H.
  cbv zeta.
  change (start 1000 (new Js.CbFunction, Scheduler.empty))
    with (fst (start 1000 (new Js.CbFunction, Scheduler.empty)),
          snd (start 1000 (new Js.CbFunction, Scheduler.empty))).
  destruct (stop 2500 _) as [tm' sch'].
  destruct H as (H1 & H2 & H3 & _ & H5 & _).
  simpl fst. split; [exact H1|]. split; [exact H2|]. split; [exact H3|exact H5].
Defined.

(** The same run from any stopped timer, whatever its callback, adds
    the two segments to what it had accumulated. *)
Lemma pause_resume_from_stopped (a1 b1 a2 b2 : Z) (tm : TimerManager.t)
    (sch : Scheduler.t) :
  isRunning tm = false -> a1 <> 0 -> a2 <> 0 ->
  totalElapsed b2 (fst (start a2 (stop b1 (start a1 (tm, sch)))))
  = pausedTime tm + ((b1 - a1) + (b2 - a2)).
Proof.
  intros Hrun Ha1 Ha2.
  apply Z.eqb_neq in Ha1. apply Z.eqb_neq in Ha2.
  unfold totalElapsed, start, stop; simpl. rewrite Hrun; simpl.
  destruct (Js.weakRefThrows (callback tm)) eqn:Hthrow; simpl;
    rewrite ?Hthrow; simpl; rewrite ?Ha1, ?Ha2; simpl;
    rewrite ?Ha1, ?Ha2; simpl; lia.
Qed.

(** C6, as stated, fails when the first start falls on instant 0: the
    timer keeps the anchor 0, which [stop()] takes for an unset anchor,
    so the first segment is not added.  Start at 0, stop at 1000,
    start at 2000, read at 3000: the two segments add up to 2000 ms, 2
    seconds, and [getElapsedSeconds()] returns 1. *)
Lemma pause_resume_from_instant_zero_fails :
  ~ (forall (a1 b1 a2 b2 : Z) (sch : Scheduler.t),
        a1 <= b1 -> b1 <= a2 -> a2 <= b2 ->
        getElapsedSeconds b2
          (fst (start a2 (stop b1 (start a1 (new Js.CbFunction, sch)))))
        = ((b1 - a1) + (b2 - a2)) / 1000).
Proof.
  intros H.
  specialize (H 0 1000 2000 3000 Scheduler.empty
                ltac:(lia) ltac:(lia) ltac:(lia)).
  vm_compute in H. discriminate H.
Qed.

(** C6, amended: start at [a1], stop at [b1], start again at [a2], read
    at [b2], with [a1 <= b1 <= a2 <= b2] and neither start on instant 0
    (which the code takes for an unset anchor).  The total elapsed time
    is the sum of the two running segments, [(b1 - a1) + (b2 - a2)]
    milliseconds, whatever the length of the pause and whatever the
    callback, and [getElapsedSeconds()] reports its whole seconds; when
    the four instants fall on whole seconds, it reports exactly the sum
    of the two segments in seconds. *)
Theorem pause_resume_accumulates (a1 b1 a2 b2 : Z) (cb : Js.callback)
    (sch : Scheduler.t) :
  a1 <> 0 -> a2 <> 0 -> a1 <= b1 -> b1 <= a2 -> a2 <= b2 ->
  let tm := fst (start a2 (stop b1 (start a1 (new cb, sch)))) in
  totalElapsed b2 tm = (b1 - a1) + (b2 - a2)
  /\ getElapsedSeconds b2 tm = ((b1 - a1) + (b2 - a2)) / 1000
  /\ (forall A1 B1 A2 B2 : Z,
         a1 = 1000 * A1 -> b1 = 1000 * B1 ->
         a2 = 1000 * A2 -> b2 = 1000 * B2 ->
         getElapsedSeconds b2 tm = (B1 - A1) + (B2 - A2)).
Proof.
  intros Hz1 Hz2 H1 H2 H3 tm.
  assert (Htot : totalElapsed b2 tm = (b1 - a1) + (b2 - a2)).
  { subst tm. rewrite pause_resume_from_stopped by (try reflexivity; assumption).
    simpl. lia. }
  split; [exact Htot|]. unfold getElapsedSeconds. rewrite Htot.
  split; [reflexivity|].
  intros A1 B1 A2 B2 -> -> -> ->.
  replace (1000 * B1 - 1000 * A1 + (1000 * B2 - 1000 * A2))
    with (((B1 - A1) + (B2 - A2)) * 1000) by lia.
  apply Z.div_mul. lia.
Qed.

Lemma pause_resume_accumulates_witness :
  getElapsedSeconds 9000
    (fst (start 6000 (stop 3500 (start 1000 (new Js.CbFunction, Scheduler.empty)))))
  = 5
  /\ getElapsedSeconds 2000
       (fst (start (-1000) (stop (-4000) (start (-7000)
                                            (new Js.CbPrimitive, Scheduler.empty)))))
     = 6.
Proof.
  split.
  - exact (proj1 (proj2 (pause_resume_accumulates 1000 3500 6000 9000
                           Js.CbFunction Scheduler.empty
                           ltac:(lia) ltac:(lia) ltac:(lia) ltac:(lia) ltac:(lia)))).
  - exact (proj1 (proj2 (pause_resume_accumulates (-7000) (-4000) (-1000) 2000
                           Js.CbPrimitive Scheduler.empty
                           ltac:(lia) ltac:(lia) ltac:(lia) ltac:(lia) ltac:(lia)))).
Defined.

Ltac crush_clock :=
  unfold setUpdateInterval, fire, reset, start, stop, totalElapsed,
    Js.truthyInstant, Js.instantToNumber, Scheduler.setInterval in *;
  simpl in *;
  repeat match goal with
         | |- context [if ?b then _ else _] => destruct b eqn:?; simpl in *
         | |- context [match ?o with Some _ => _ | None => _ end] =>
             destruct o eqn:?; simpl in *
         | H : (_ =? _) = true |- _ => apply Z.eqb_eq in H
         | H : (_ =? _) = false |- _ => apply Z.eqb_neq in H
         end;
  try congruence; try lia.

Lemma totalElapsed_time_passes (from until : Z) (tm : TimerManager.t) :
  from <= until -> totalElapsed from tm <= totalElapsed until tm.
Proof. intros Ht. crush_clock. Qed.

(** A call other than [reset()] never takes elapsed time away. *)
Lemma step_keeps_elapsed (o : History.op) (from : Z)
    (st : TimerManager.t * Scheduler.t) :
  History.isReset o = false ->
  from <= History.firstRead o ->
  History.firstRead o <= History.lastRead o ->
  totalElapsed from (fst st)
  <= totalElapsed (History.lastRead o) (fst (History.step o st)).
Proof.
  intros Hr H1 H2. destruct st as [tm sch].
  destruct o as [now|now|now|interval now now'|id alive now];
    try discriminate Hr; cbn [History.step History.firstRead History.lastRead] in *.
  - destruct tm as [cb iid run anchor paused delay]. destruct cb, run; crush_clock.
  - destruct tm as [cb iid run anchor paused delay]. destruct cb, run; crush_clock.
  - destruct tm as [cb iid run anchor paused delay]. destruct cb, run; crush_clock.
  - destruct tm as [cb iid run anchor paused delay]. destruct cb, run; crush_clock.
Qed.

Lemma run_keeps_elapsed (ops : list History.op) :
  forall (from : Z) (st : TimerManager.t * Scheduler.t),
    forallb (fun o => negb (History.isReset o)) ops = true ->
    History.chronological from ops ->
    totalElapsed from (fst st)
    <= totalElapsed (History.endOf from ops) (fst (History.run ops st)).
Proof.
  induction ops as [|o ops IH]; intros from st Hnr Hch.
  - simpl. lia.
  - simpl in Hnr. apply andb_true_iff in Hnr as [Ho Hnr].
    apply negb_true_iff in Ho.
    destruct Hch as (H1 & H2 & Hch).
    change (History.run (o :: ops) st) with (History.run ops (History.step o st)).
    cbn [History.endOf].
    specialize (IH (History.lastRead o) (History.step o st) Hnr Hch).
    pose proof (step_keeps_elapsed o from st Ho H1 H2). lia.
Qed.

(** The restart done by [setUpdateInterval] on a running timer keeps the
    total reached at the instant [stop()] read the clock. *)
Lemma restart_keeps_total (interval : Js.value) (now now' : Z)
    (tm : TimerManager.t) (sch : Scheduler.t) :
  isRunning tm = true ->
  Js.isNumber interval && Js.gt interval (Js.Num 0) = true ->
  totalElapsed now' (fst (setUpdateInterval interval now now' (tm, sch)))
  = totalElapsed now tm
  /\ isRunning (fst (setUpdateInterval interval now now' (tm, sch))) = true
  /\ updateInterval (fst (setUpdateInterval interval now now' (tm, sch)))
     = Js.toNumber interval.
Proof.
  intros Hrun Hok. unfold setUpdateInterval. rewrite Hok. simpl.
  rewrite Hrun. destruct tm as [cb iid run anchor paused delay].
  simpl in Hrun. subst run. destruct cb; repeat split; crush_clock.
Qed.

(** C7: two reads of [getElapsedSeconds()], at instant [t1] and at a
    later instant [t2], with any calls of [start], [stop],
    [setUpdateInterval] and any firings of the interval handler in
    between, but no [reset]: the second read is not less than the
    first, provided the wall clock does not run backwards.  The empty
    history is the timer left alone (running or not); a history of one
    [setUpdateInterval] is the restart. *)
Theorem elapsed_seconds_monotone (ops : list History.op) (t1 t2 : Z)
    (st : t * Scheduler.t) :
  forallb (fun o => negb (History.isReset o)) ops = true ->
  History.chronological t1 ops ->
  History.endOf t1 ops <= t2 ->
  getElapsedSeconds t1 (fst st)
  <= getElapsedSeconds t2 (fst (History.run ops st)).
Proof.
  intros Hnr Hch Hend. unfold getElapsedSeconds.
  apply Z.div_le_mono; [lia|].
  pose proof (run_keeps_elapsed ops t1 st Hnr Hch).
  pose proof (totalElapsed_time_passes _ _ (fst (History.run ops st)) Hend).
  lia.
Qed.

Lemma elapsed_seconds_monotone_witness :
  let st := start 1000 (new Js.CbFunction, Scheduler.empty) in
  getElapsedSeconds 2500 (fst st)
  <= getElapsedSeconds 4000
       (fst (History.run [History.SetUpdateInterval (Js.Num 5000) 3000 3001] st)).
Proof.
  apply (elapsed_seconds_monotone
           [History.SetUpdateInterval (Js.Num 5000) 3000 3001] 2500 4000
           (start 1000 (new Js.CbFunction, Scheduler.empty))).
  - reflexivity.
  - simpl. lia.
  - simpl. lia.
Defined.

Lemma pending_setInterval (delay : float) (sch : Scheduler.t) :
  Scheduler.pending (fst (Scheduler.setInterval delay sch))
    (snd (Scheduler.setInterval delay sch)) = true.
Proof.
  unfold Scheduler.pending, Scheduler.setInterval; simpl.
  apply bool_decide_eq_true. rewrite lookup_insert_eq. eauto.
Qed.

Lemma start_handleInvariant (now : Z) (st : TimerManager.t * Scheduler.t) :
  Js.weakRefThrows (callback (fst st)) = false ->
  History.handleInvariant st -> History.handleInvariant (start now st).
Proof.
  destruct st as [tm sch]. cbn [fst]. intros Hcb. unfold start.
  destruct (isRunning tm) eqn:Hrun; [auto|]. rewrite Hcb.
  intros _. split; simpl.
  - split; [discriminate | reflexivity].
  - intros id [= <-]. apply (pending_setInterval (updateInterval tm) sch).
Qed.

Lemma stop_handleInvariant (now : Z) (st : TimerManager.t * Scheduler.t) :
  History.handleInvariant st -> History.handleInvariant (stop now st).
Proof.
  destruct st as [tm sch]. unfold stop.
  destruct (isRunning tm) eqn:Hrun; simpl; [|auto].
  intros _. split; simpl.
  - split; [discriminate | congruence].
  - discriminate.
Qed.

Lemma reset_handleInvariant (now : Z) (st : TimerManager.t * Scheduler.t) :
  History.handleInvariant st -> History.handleInvariant (reset now st).
Proof.
  intros Hinv. unfold reset.
  destruct (isRunning (fst st)) eqn:Hrun.
  - pose proof (stop_handleInvariant now st Hinv) as [Hiff Hpend].
    destruct (stop now st) as [tm' sch'] eqn:Hstop; simpl in *.
    assert (Hnone : intervalId tm' = None).
    { destruct st as [tm sch]. unfold stop in Hstop. simpl in Hrun.
      rewrite Hrun in Hstop. simpl in Hstop. injection Hstop as <- _.
      reflexivity. }
    split; simpl.
    + rewrite Hnone. split; [discriminate | congruence].
    + rewrite Hnone. discriminate.
  - destruct st as [tm sch]; simpl in *.
    destruct Hinv as [Hiff Hpend]; simpl in *.
    assert (Hnone : intervalId tm = None).
    { destruct (intervalId tm) eqn:Hid; [|reflexivity].
      assert (isRunning tm = true) by (apply Hiff; discriminate). congruence. }
    split; simpl.
    + rewrite Hnone. split; [discriminate | congruence].
    + rewrite Hnone. discriminate.
Qed.

(** No call changes the callback. *)
Lemma step_callback (o : History.op) (st : TimerManager.t * Scheduler.t) :
  callback (fst (History.step o st)) = callback (fst st).
Proof.
  destruct st as [[cb iid run anchor paused delay] sch].
  destruct o as [now|now|now|interval now now'|id alive now];
    cbn [History.step];
    unfold setUpdateInterval, fire, reset, start, stop; simpl;
    repeat match goal with
           | |- context [if ?b then _ else _] => destruct b; simpl
           end; reflexivity.
Qed.

Lemma step_handleInvariant (o : History.op) (st : TimerManager.t * Scheduler.t) :
  Js.weakRefThrows (callback (fst st)) = false ->
  History.handleInvariant st -> History.handleInvariant (History.step o st).
Proof.
  intros Hcb Hinv. destruct o as [now|now|now|interval now now'|id alive now];
    cbn [History.step].
  - apply start_handleInvariant; assumption.
  - apply stop_handleInvariant, Hinv.
  - apply reset_handleInvariant, Hinv.
  - destruct st as [tm sch]. unfold setUpdateInterval.
    destruct (Js.isNumber interval && Js.gt interval (Js.Num 0)); [|exact Hinv].
    set (tm1 := {| callback := callback tm;
                   intervalId := intervalId tm; isRunning := isRunning tm;
                   startTime := startTime tm; pausedTime := pausedTime tm;
                   updateInterval := Js.toNumber interval |}).
    assert (Hinv1 : History.handleInvariant (tm1, sch)) by exact Hinv.
    destruct (isRunning tm1) eqn:Hrun.
    + apply start_handleInvariant; [|apply stop_handleInvariant, Hinv1].
      pose proof (step_callback (History.Stop now) (tm1, sch)) as Hc.
      cbn [History.step] in Hc. rewrite Hc. exact Hcb.
    + exact Hinv1.
  - unfold fire. destruct (Scheduler.pending id (snd st)); [|exact Hinv].
    destruct (Js.truthyCallback (callback (fst st))
              && Js.isObjectCallback (callback (fst st))); [|exact Hinv].
    destruct (alive && Js.isFunctionCallback (callback (fst st)));
      [exact Hinv|]. apply stop_handleInvariant, Hinv.
Qed.

Lemma stopped_holds_no_handle (st : TimerManager.t * Scheduler.t) :
  History.handleInvariant st -> isRunning (fst st) = false ->
  intervalId (fst st) = None.
Proof.
  intros [Hiff _] Hrun.
  destruct (intervalId (fst st)) eqn:Hid; [|reflexivity].
  assert (isRunning (fst st) = true) by (apply Hiff; discriminate).
  congruence.
Qed.

Lemma start_soleInterval (now : Z) (st : TimerManager.t * Scheduler.t) :
  History.handleInvariant st -> History.soleInterval st ->
  History.soleInterval (start now st).
Proof.
  destruct st as [tm sch]. unfold start.
  destruct (isRunning tm) eqn:Hrun; [auto|].
  intros Hinv Hsole.
  pose proof (stopped_holds_no_handle (tm, sch) Hinv Hrun) as Hnone.
  unfold History.soleInterval in *; simpl in *. rewrite Hnone in Hsole.
  destruct (Js.weakRefThrows (callback tm)); simpl.
  - rewrite Hnone. exact Hsole.
  - rewrite Hsole. apply insert_empty.
Qed.

Lemma stop_running_soleInterval (now : Z) (tm : TimerManager.t)
    (sch : Scheduler.t) (delay : float) :
  isRunning tm = true ->
  Scheduler.live sch =
    match intervalId tm with
    | Some id => {[ id := delay ]}
    | None => ∅
    end ->
  History.soleInterval (stop now (tm, sch)).
Proof.
  intros Hrun Hlive. unfold stop. rewrite Hrun. simpl.
  unfold History.soleInterval; simpl.
  destruct (intervalId tm) eqn:Hid; simpl.
  - rewrite Hlive. apply delete_singleton_eq.
  - exact Hlive.
Qed.

Lemma stop_soleInterval (now : Z) (st : TimerManager.t * Scheduler.t) :
  History.soleInterval st -> History.soleInterval (stop now st).
Proof.
  destruct st as [tm sch]. intros Hsole.
  destruct (isRunning tm) eqn:Hrun.
  - apply (stop_running_soleInterval now tm sch (updateInterval tm) Hrun Hsole).
  - unfold stop. rewrite Hrun. exact Hsole.
Qed.

Lemma step_soleInterval (o : History.op) (st : TimerManager.t * Scheduler.t) :
  History.handleInvariant st -> History.soleInterval st ->
  History.soleInterval (History.step o st).
Proof.
  intros Hinv Hsole.
  destruct o as [now|now|now|interval now now'|id alive now];
    cbn [History.step].
  - apply start_soleInterval; assumption.
  - apply stop_soleInterval; assumption.
  - unfold reset.
    destruct (isRunning (fst st)) eqn:Hrun.
    + pose proof (stop_soleInterval now st Hsole) as Hs.
      destruct (stop now st) as [tm' sch'] eqn:Hstop.
      unfold History.soleInterval in *; simpl in *.
      rewrite Hs. destruct (intervalId tm'); reflexivity.
    + pose proof (stopped_holds_no_handle st Hinv Hrun) as Hnone.
      destruct st as [tm sch].
      unfold History.soleInterval in *; simpl in *.
      rewrite Hsole, Hnone. reflexivity.
  - destruct st as [tm sch]. unfold setUpdateInterval.
    destruct (Js.isNumber interval && Js.gt interval (Js.Num 0)); [|exact Hsole].
    set (tm1 := {| callback := callback tm;
                   intervalId := intervalId tm; isRunning := isRunning tm;
                   startTime := startTime tm; pausedTime := pausedTime tm;
                   updateInterval := Js.toNumber interval |}).
    change (isRunning tm1) with (isRunning tm).
    assert (Hinv1 : History.handleInvariant (tm1, sch)) by exact Hinv.
    destruct (isRunning tm) eqn:Hrun.
    + apply start_soleInterval.
      * apply stop_handleInvariant, Hinv1.
      * apply (stop_running_soleInterval now tm1 sch (updateInterval tm) eq_refl).
        exact Hsole.
    + pose proof (stopped_holds_no_handle (tm, sch) Hinv Hrun) as Hnone.
      unfold History.soleInterval in *; simpl in *.
      rewrite Hnone in *. exact Hsole.
  - unfold fire. destruct (Scheduler.pending id (snd st)); [|exact Hsole].
    destruct (Js.truthyCallback (callback (fst st))
              && Js.isObjectCallback (callback (fst st))); [|exact Hsole].
    destruct (alive && Js.isFunctionCallback (callback (fst st)));
      [exact Hsole|]. apply stop_soleInterval, Hsole.
Qed.

Lemma run_invariants (ops : list History.op) :
  forall st : TimerManager.t * Scheduler.t,
    Js.weakRefThrows (callback (fst st)) = false ->
    History.handleInvariant st ->
    History.handleInvariant (History.run ops st)
    /\ (History.soleInterval st -> History.soleInterval (History.run ops st)).
Proof.
  induction ops as [|o ops IH]; intros st Hcb Hinv.
  - split; [exact Hinv | auto].
  - change (History.run (o :: ops) st) with (History.run ops (History.step o st)).
    assert (Hcb' : Js.weakRefThrows (callback (fst (History.step o st))) = false)
      by (rewrite step_callback; exact Hcb).
    destruct (IH (History.step o st) Hcb' (step_handleInvariant o st Hcb Hinv))
      as [H1 H2].
    split; [exact H1|].
    intros Hsole. apply H2, step_soleInterval; assumption.
Qed.

Lemma new_handleInvariant (cb : Js.callback) (sch : Scheduler.t) :
  History.handleInvariant (new cb, sch).
Proof.
  split; simpl.
  - split; [discriminate | congruence].
  - discriminate.
Qed.

(** With a callback that [start()] can take (a function, an object, or
    a falsy value), after construction and after any sequence of
    [start], [stop], [reset], [setUpdateInterval] and firings of the
    interval handler, [isRunning] is true exactly when [intervalId] is
    not null, and the handle held is pending in the scheduler.  When
    the scheduler served this timer only, its pending timers are
    exactly that one handle while running and none while stopped. *)
Lemma running_iff_interval_handle (cb : Js.callback) (ops : list History.op)
    (sch : Scheduler.t) :
  Js.weakRefThrows cb = false ->
  (isRunning (fst (History.run ops (new cb, sch))) = true
   <-> intervalId (fst (History.run ops (new cb, sch))) <> None)
  /\ (forall id, intervalId (fst (History.run ops (new cb, sch))) = Some id ->
                 Scheduler.pending id (snd (History.run ops (new cb, sch))) = true)
  /\ History.soleInterval (History.run ops (new cb, Scheduler.empty)).
Proof.
  intros Hcb.
  destruct (run_invariants ops (new cb, sch) Hcb (new_handleInvariant cb sch))
    as [[H1 H2] _].
  destruct (run_invariants ops (new cb, Scheduler.empty) Hcb
              (new_handleInvariant cb Scheduler.empty)) as [_ H3].
  split; [exact H1|]. split; [exact H2|].
  apply H3. reflexivity.
Qed.

(** The runner's [start()], which makes no weak reference, gives the
    timer a pending handle whatever the callback is. *)
Lemma runner_timerStart_handleInvariant (now : Z)
    (st : TimerManager.t * Scheduler.t) :
  History.handleInvariant st ->
  History.handleInvariant (RunnerCopy.timerStart now st).
Proof.
  destruct st as [tm sch]. unfold RunnerCopy.timerStart.
  destruct (isRunning tm) eqn:Hrun; [auto|].
  intros _. split; simpl.
  - split; [discriminate | reflexivity].
  - intros id [= <-]. apply (pending_setInterval (updateInterval tm) sch).
Qed.

(** C10, at the input that breaks it: a timer built with a callback that
    is a truthy primitive, as [new TimerManager('not a function')].
    [start()] sets [isRunning] and the anchor, then
    [new WeakRef(this.callback)] throws before [setInterval] is
    reached: the timer is left with [isRunning] true and [intervalId]
    null, the scheduler untouched.  The runner's [start()] on the same
    timer returns with a pending handle. *)
Theorem start_throwing_leaves_no_handle (now : Z) (sch : Scheduler.t) :
  startThrows (new Js.CbPrimitive) = true
  /\ isRunning (fst (start now (new Js.CbPrimitive, sch))) = true
  /\ intervalId (fst (start now (new Js.CbPrimitive, sch))) = None
  /\ snd (start now (new Js.CbPrimitive, sch)) = sch
  /\ ~ History.handleInvariant (start now (new Js.CbPrimitive, sch))
  /\ History.handleInvariant
       (RunnerCopy.timerStart now (new Js.CbPrimitive, sch)).
Proof.
  split; [reflexivity|]. split; [reflexivity|]. split; [reflexivity|].
  split; [reflexivity|]. split.
  - intros [Hiff _]. simpl in Hiff.
    destruct Hiff as [Hiff _]. apply (Hiff eq_refl). reflexivity.
  - apply runner_timerStart_handleInvariant, new_handleInvariant.
Qed.

End ClockProperties.

(** ** The rendering of the elapsed time *)

Section FormatProperties.

Local Open Scope string_scope.

Lemma string_length_append (a b : string) :
  String.length (a ++ b) = (String.length a + String.length b)%nat.
Proof. induction a as [|c a IH]; simpl; [reflexivity | rewrite IH; reflexivity]. Qed.

Lemma string_of_repeat_length (c : ascii) (k : nat) :
  String.length (string_of_list_ascii (repeat c k)) = k.
Proof. induction k as [|k IH]; simpl; [reflexivity | rewrite IH; reflexivity]. Qed.

Lemma padStart_length (k : nat) (c : ascii) (s : string) :
  String.length (Js.padStart k c s) = Nat.max k (String.length s).
Proof.
  unfold Js.padStart. rewrite string_length_append, string_of_repeat_length. lia.
Qed.

(** A string already long enough is returned as it is. *)
Lemma padStart_long (k : nat) (c : ascii) (s : string) :
  (k <= String.length s)%nat -> Js.padStart k c s = s.
Proof.
  intros Hk. unfold Js.padStart.
  replace (k - String.length s)%nat with 0%nat by lia. reflexivity.
Qed.

Lemma decimalValue_toStringInteger (h : Z) :
  0 <= h -> Js.decimalValue (Js.toStringInteger h) = Some h.
Proof.
  intros Hh. destruct h as [|p|p]; [reflexivity| |lia].
  unfold Js.decimalValue, Js.toStringInteger; simpl.
  rewrite NilZero.usu by apply DecimalPos.Unsigned.to_uint_nonnil.
  simpl. unfold Z.of_uint. rewrite DecimalPos.Unsigned.of_to. reflexivity.
Qed.

(** From ten on, the decimal rendering has two digits or more. *)
Lemma toStringInteger_long (h : Z) :
  10 <= h -> (2 <= String.length (Js.toStringInteger h))%nat.
Proof.
  intros Hh. destruct h as [|p|p]; try lia.
  unfold Js.toStringInteger; simpl.
  pose proof (DecimalPos.Unsigned.of_to p) as Hp.
  destruct (Pos.to_uint p) as [|u|u|u|u|u|u|u|u|u|u]; simpl in Hp;
    try discriminate Hp;
    (destruct u; simpl;
     [ simpl in Hp; try discriminate Hp; injection Hp as Hp; lia
     | lia .. ]).
Qed.

Lemma small_field (k : Z) :
  0 <= k < 60 ->
  String.length (Js.padStart 2 "0" (Js.toStringInteger k)) = 2%nat
  /\ Js.decimalValue (Js.padStart 2 "0" (Js.toStringInteger k)) = Some k.
Proof.
  intros Hk.
  assert (Hall : forallb WageCounter.fieldOk (seqZ 0 60) = true) by (vm_compute; reflexivity).
  rewrite forallb_forall in Hall.
  assert (Hin : In k (seqZ 0 60)).
  { apply list_elem_of_In, elem_of_seqZ. lia. }
  specialize (Hall k Hin). unfold WageCounter.fieldOk in Hall.
  apply andb_true_iff in Hall as [Hlen Hval].
  apply Nat.eqb_eq in Hlen. split; [exact Hlen|].
  destruct (Js.decimalValue _) as [v|]; [|discriminate Hval].
  apply Z.eqb_eq in Hval. congruence.
Qed.

Lemma hours_field (h : Z) :
  0 <= h ->
  (2 <= String.length (Js.padStart 2 "0" (Js.toStringInteger h)))%nat
  /\ Js.decimalValue (Js.padStart 2 "0" (Js.toStringInteger h)) = Some h.
Proof.
  intros Hh. destruct (Z_lt_le_dec h 10) as [Hsmall|Hbig].
  - destruct (small_field h ltac:(lia)) as [Hlen Hval]. split; [lia|exact Hval].
  - pose proof (toStringInteger_long h Hbig) as Hlen.
    rewrite (padStart_long 2 "0" _ Hlen).
    split; [exact Hlen | apply decimalValue_toStringInteger, Hh].
Qed.

(** C8: when [elapsedSeconds] holds a whole number [n] that is not
    negative, the [formattedElapsedTime] of the state snapshot is
    [hh:mm:ss], where [hh] is the decimal rendering of [n / 3600] padded
    to two digits at least (so it denotes the full count of hours, past
    24 too), and [mm] and [ss] are exactly two digits denoting
    [(n mod 3600) / 60] and [n mod 60].  86400 seconds give
    ["24:00:00"] and 30 hours give ["30:00:00"]. *)
Theorem formatted_elapsed_time_shape :
  (forall (app : App.t) (f : float) (n : Z),
      WageCounter.getElapsedTime (App.wageCounter app) = Js.Num f ->
      Js.toSafeInteger f = Some n ->
      0 <= n ->
      exists hh mm ss : string,
        App.st_formattedElapsedTime (App.getState app)
        = Some (hh ++ ":" ++ mm ++ ":" ++ ss)
        /\ (2 <= String.length hh)%nat
        /\ Js.decimalValue hh = Some (n / 3600)
        /\ String.length mm = 2%nat
        /\ Js.decimalValue mm = Some ((n mod 3600) / 60)
        /\ String.length ss = 2%nat
        /\ Js.decimalValue ss = Some (n mod 60))
  /\ App.st_formattedElapsedTime
       (App.getState
          {| App.wageCounter :=
               WageCounter.updateElapsedTime (Js.Num 86400) WageCounter.new;
             App.timerManager := None;
             App.isInitialized := false |})
     = Some "24:00:00"
  /\ App.st_formattedElapsedTime
       (App.getState
          {| App.wageCounter :=
               WageCounter.updateElapsedTime (Js.Num (30 * 3600)) WageCounter.new;
             App.timerManager := None;
             App.isInitialized := false |})
     = Some "30:00:00".
Proof.
  split; [|split; reflexivity].
  intros app f n Hf Hn Hpos.
  unfold App.getState, WageCounter.getFormattedElapsedTime; simpl.
  unfold WageCounter.getElapsedTime in Hf. rewrite Hf, Hn. simpl.
  unfold WageCounter.formatHMS, WageCounter.breakdown.
  rewrite !Z.rem_mod_nonneg by lia.
  assert (H3600 : 0 <= n mod 3600 < 3600) by (apply Z.mod_pos_bound; lia).
  assert (Hm : 0 <= (n mod 3600) / 60 < 60).
  { split; [apply Z.div_pos; lia | apply Z.div_lt_upper_bound; lia]. }
  assert (Hs : 0 <= n mod 60 < 60) by (apply Z.mod_pos_bound; lia).
  assert (Hh : 0 <= n / 3600) by (apply Z.div_pos; lia).
  destruct (hours_field _ Hh) as [Hh1 Hh2].
  destruct (small_field _ Hm) as [Hm1 Hm2].
  destruct (small_field _ Hs) as [Hs1 Hs2].
  eexists _, _, _. split; [reflexivity|].
  repeat split; assumption.
Qed.

Lemma formatted_elapsed_time_shape_witness :
  exists hh mm ss : string,
    App.st_formattedElapsedTime
      (App.getState
         {| App.wageCounter :=
              WageCounter.updateElapsedTime (Js.Num 90061) WageCounter.new;
            App.timerManager := None;
            App.isInitialized := false |})
    = Some (hh ++ ":" ++ mm ++ ":" ++ ss)
    /\ Js.decimalValue hh = Some 25
    /\ Js.decimalValue mm = Some 1
    /\ Js.decimalValue ss = Some 1.
Proof.
  destruct (proj1 formatted_elapsed_time_shape
              {| App.wageCounter :=
                   WageCounter.updateElapsedTime (Js.Num 90061) WageCounter.new;
                 App.timerManager := None;
                 App.isInitialized := false |}
              90061%float 90061 eq_refl eq_refl ltac:(lia))
    as (hh & mm & ss & H & _ & Hh & _ & Hm & _ & Hs).
  exists hh, mm, ss. repeat split; assumption.
Defined.

End FormatProperties.

(** ** The coordinator *)

Section CoordinatorProperties.

(** After [initialize()] the application is initialized, and a first
    initialization installs a fresh, stopped timer. *)
Lemma initialize_initialized (saved : App.savedWage) (app : App.t) :
  App.isInitialized (App.initialize saved app) = true.
Proof.
  unfold App.initialize. destruct (App.isInitialized app) eqn:Hi; [exact Hi|].
  reflexivity.
Qed.

Lemma initialize_fresh_timer (saved : App.savedWage) (app : App.t) :
  App.isInitialized app = false ->
  App.timerManager (App.initialize saved app)
  = Some (TimerManager.new Js.CbFunction)
  /\ WageCounter.getIsRunning (App.wageCounter (App.initialize saved app))
     = WageCounter.getIsRunning (App.wageCounter app).
Proof.
  intros Hi. unfold App.initialize. rewrite Hi.
  destruct saved; split; reflexivity.
Qed.

(** C1, as stated, fails on a coordinator that is already running: the
    refusal stops nothing.  Initialize, set the wage to 1000, start;
    then set the wage to 0 and call [start()] again: it returns false,
    and both the timer and the counter are still running, so
    [getState().isRunning] is true. *)
Lemma start_refused_while_running :
  let st1 := (App.setHourlyWage (Js.Num 1000)
                (App.initialize (App.SavedValid 0) App.new), Scheduler.empty) in
  exists st2 st3 : App.t * Scheduler.t,
    App.start (App.SavedValid 0) 1000 1000 st1 = Some (true, st2)
    /\ Js.le (WageCounter.getHourlyWage
                (App.wageCounter (App.setHourlyWage (Js.Num 0) (fst st2))))
             (Js.Num 0) = true
    /\ App.start (App.SavedValid 0) 2000 2000
         (App.setHourlyWage (Js.Num 0) (fst st2), snd st2) = Some (false, st3)
    /\ App.st_isRunning (App.getState (fst st3)) = true
    /\ App.timerRunning (fst st3) = true.
Proof.
  eexists _, _. split; [reflexivity|].
  split; [reflexivity|]. split; [reflexivity|].
  split; reflexivity.
Qed.

(** C1, amended: when the hourly wage that [start()] checks (the one of
    the coordinator once initialized, which [start()] does first if
    needed, loading the saved wage) is [<= 0], [start()] returns false
    and starts nothing: the scheduler is untouched and the coordinator
    is the initialized one, unchanged.  If neither the counter nor the
    timer was running before the call, neither is running afterwards
    and [getState().isRunning] is false. *)
Theorem start_refused_when_wage_not_positive
    (saved : App.savedWage) (nowC nowT : Z) (app : App.t) (sch : Scheduler.t) :
  let app' := if App.isInitialized app then app else App.initialize saved app in
  Js.le (WageCounter.getHourlyWage (App.wageCounter app')) (Js.Num 0) = true ->
  App.start saved nowC nowT (app, sch) = Some (false, (app', sch))
  /\ (WageCounter.getIsRunning (App.wageCounter app) = false ->
      App.timerRunning app = false ->
      WageCounter.getIsRunning (App.wageCounter app') = false
      /\ App.timerRunning app' = false
      /\ App.st_isRunning (App.getState app') = false).
Proof.
  intros app' Hwage. subst app'. unfold App.start.
  destruct (App.isInitialized app) eqn:Hi; simpl in *.
  - rewrite Hwage. split; [reflexivity|]. intros Hc Ht. auto.
  - destruct (initialize_fresh_timer saved app Hi) as [Htm Hrun].
    rewrite Htm. simpl. rewrite Hwage. split; [reflexivity|].
    intros Hc _. unfold App.timerRunning, App.getState. rewrite Htm. simpl.
    rewrite Hrun. auto.
Qed.

Lemma start_refused_when_wage_not_positive_witness :
  App.start (App.SavedValid 0) 1000 1000 (App.new, Scheduler.empty)
  = Some (false, (App.initialize (App.SavedValid 0) App.new, Scheduler.empty))
  /\ App.st_isRunning
       (App.getState (App.initialize (App.SavedValid 0) App.new)) = false.
Proof.
  destruct (start_refused_when_wage_not_positive
              (App.SavedValid 0) 1000 1000 App.new Scheduler.empty eq_refl)
    as [Hstart Hrun].
  split; [exact Hstart|].
  exact (proj2 (proj2 (Hrun eq_refl eq_refl))).
Defined.

(** With a wage above zero, [start()] starts both components. *)
Lemma start_accepted_example :
  exists st : App.t * Scheduler.t,
    App.start App.NoSavedValue 1000 1000
      (App.setHourlyWage (Js.Num 1000)
         (App.initialize App.NoSavedValue App.new), Scheduler.empty)
    = Some (true, st)
    /\ App.st_isRunning (App.getState (fst st)) = true
    /\ App.timerRunning (fst st) = true
    /\ App.isStateSynchronized (fst st) = Some true.
Proof. eexists. repeat split; reflexivity. Qed.

(** The runner's copy of [start()] has no check of the wage: with the
    wage at 0 it starts both components. *)
Lemma runner_start_not_gated :
  exists st : App.t * Scheduler.t,
    RunnerCopy.start 1000 1000 (App.new, Scheduler.empty) = Some st
    /\ App.st_isRunning (App.getState (fst st)) = true
    /\ App.timerRunning (fst st) = true.
Proof. eexists. repeat split; reflexivity. Qed.

(** One tick after 60 seconds at 1000 per hour: the snapshot shows the
    elapsed time and the earnings recomputed from it. *)
Lemma updateEarnings_example :
  let tm := {| TimerManager.callback := Js.CbFunction;
               TimerManager.intervalId := None;
               TimerManager.isRunning := false;
               TimerManager.startTime := None;
               TimerManager.pausedTime := 60000;
               TimerManager.updateInterval := 1000%float |} in
  let app := {| App.wageCounter :=
                  WageCounter.setHourlyWage (Js.Num 1000) WageCounter.new;
                App.timerManager := Some tm;
                App.isInitialized := true |} in
  exists app' : App.t,
    App.updateEarnings None 0 app = Some app'
    /\ App.st_elapsedSeconds (App.getState app') = Js.Num 60
    /\ App.st_currentEarnings (App.getState app') = (1000 / 3600 * 60)%float
    /\ App.st_formattedElapsedTime (App.getState app') = Some "00:01:00"%string.
Proof. eexists. repeat split; reflexivity. Qed.

End CoordinatorProperties.

(** ** More on the accumulator *)

Section AccumulatorExtras.

Import WageCounter.

Local Open Scope float_scope.

(** A product of two values that are not negative is not negative. *)
Lemma mul_not_ltb (x y : float) :
  (x <? 0) = false -> (y <? 0) = false -> (x * y <? 0) = false.
Proof.
  rewrite !ltb_spec, mul_spec.
  change (Prim2SF 0) with (S754_zero false).
  unfold SF64mul, SFmul.
  destruct (Prim2SF x) as [s|s| |s m e]; try destruct s;
    destruct (Prim2SF y) as [s'|s'| |s' m' e']; try destruct s';
    cbn -[binary_round_aux]; try congruence;
    intros _ _; apply round_keeps_sign_nonneg.
Qed.

(** The earnings computed for any argument, on any state, are never
    negative: neither the value [calculateEarningsForSeconds] returns
    nor the [currentEarnings] that [updateElapsedTime] stores. *)
Theorem earnings_never_negative (s : Js.value) (w : t) :
  (calculateEarningsForSeconds s w <? 0) = false
  /\ (getCurrentEarnings (updateElapsedTime s w) <? 0) = false.
Proof.
  assert (H : forall w', (calculateEarningsForSeconds s w' <? 0) = false).
  { intros w'. unfold calculateEarningsForSeconds.
    destruct (negb (Js.isNumber s) || Js.isNaN s) eqn:Hg; simpl; [reflexivity|].
    destruct (Js.lt s (Js.Num 0)) eqn:Hlt; [reflexivity|].
    apply mul_not_ltb; [|exact Hlt].
    destruct (perSecondWage w' <? 0) eqn:Hp; [reflexivity | exact Hp]. }
  split; [apply H|].
  unfold updateElapsedTime, updateCurrentEarnings, getCurrentEarnings; simpl.
  apply H.
Qed.

Lemma apply_rate_invariant (c : Reach.call) (w : t) :
  perSecondWage w = Js.div (hourlyWage w) (Js.Num 3600)
  /\ Js.lt (hourlyWage w) (Js.Num 0) = false ->
  perSecondWage (Reach.apply c w) = Js.div (hourlyWage (Reach.apply c w)) (Js.Num 3600)
  /\ Js.lt (hourlyWage (Reach.apply c w)) (Js.Num 0) = false.
Proof.
  intros Hw. destruct c; cbn [Reach.apply]; try exact Hw.
  - unfold setHourlyWage; simpl. split; [reflexivity|].
    destruct (Js.lt wage (Js.Num 0)) eqn:Hlt; [reflexivity | exact Hlt].
  - unfold start. destruct (negb (isRunning w)); exact Hw.
Qed.

(** Whatever calls were made on a counter, its rate is the stored wage
    divided by 3600, and neither the wage nor the rate is negative. *)
Theorem rate_derived_from_wage (calls : list Reach.call) :
  perSecondWage (Reach.after calls)
  = Js.div (hourlyWage (Reach.after calls)) (Js.Num 3600)
  /\ Js.lt (hourlyWage (Reach.after calls)) (Js.Num 0) = false
  /\ (perSecondWage (Reach.after calls) <? 0) = false.
Proof.
  assert (H : perSecondWage (Reach.after calls)
              = Js.div (hourlyWage (Reach.after calls)) (Js.Num 3600)
              /\ Js.lt (hourlyWage (Reach.after calls)) (Js.Num 0) = false).
  { unfold Reach.after.
    assert (Hnew : perSecondWage new = Js.div (hourlyWage new) (Js.Num 3600)
                   /\ Js.lt (hourlyWage new) (Js.Num 0) = false)
      by (split; reflexivity).
    revert Hnew. generalize new as w.
    induction calls as [|c calls IH]; intros w Hw; simpl; [exact Hw|].
    apply IH, apply_rate_invariant, Hw. }
  destruct H as [H1 H2]. split; [exact H1|]. split; [exact H2|].
  apply reachable_rate_not_negative.
Qed.

(** [calculatePerSecondWage] never returns a negative rate. *)
Theorem calculatePerSecondWage_not_negative (v : Js.value) :
  (calculatePerSecondWage v <? 0) = false.
Proof.
  unfold calculatePerSecondWage.
  destruct (negb (Js.isNumber v) || Js.isNaN v); [reflexivity|].
  unfold Js.div. destruct (Js.lt v (Js.Num 0)) eqn:Hlt; [reflexivity|].
  apply div_3600_not_ltb. exact Hlt.
Qed.

(** On every number that is not NaN, the rate [setHourlyWage] stores is
    the one [calculatePerSecondWage] computes. *)
Theorem setHourlyWage_matches_calculatePerSecondWage (r : float) (w : t) :
  PrimFloat.is_nan r = false ->
  getPerSecondWage (setHourlyWage (Js.Num r) w)
  = calculatePerSecondWage (Js.Num r).
Proof.
  intros Hnan.
  unfold getPerSecondWage, setHourlyWage, calculatePerSecondWage, Js.isNaN; simpl.
  rewrite Hnan. reflexivity.
Qed.

Lemma setHourlyWage_matches_calculatePerSecondWage_witness :
  getPerSecondWage (setHourlyWage (Js.Num (-100)) new) = 0
  /\ calculatePerSecondWage (Js.Num (-100)) = 0.
Proof.
  pose proof (setHourlyWage_matches_calculatePerSecondWage (-100) new eq_refl) as H.
  split; [rewrite H|]; reflexivity.
Defined.

(** A change of rate reprices the whole elapsed time: after
    [setHourlyWage(r)] with [r >= 0] and [updateElapsedTime(s)] with a
    valid [s], the earnings are [(r / 3600) * s], whatever the state
    before. *)
Theorem rate_change_reprices (r : float) (s : Js.value) (w : t) :
  (0 <=? r) = true ->
  Reach.validSeconds s = true ->
  getCurrentEarnings (updateElapsedTime s (setHourlyWage (Js.Num r) w))
  = r / 3600 * Js.toNumber s.
Proof.
  intros Hr Hs.
  unfold getCurrentEarnings, updateElapsedTime, updateCurrentEarnings,
    calculateEarningsForSeconds; simpl.
  rewrite (validSeconds_guard s Hs).
  unfold Js.lt, Js.div; simpl.
  rewrite (leb_zero_not_ltb r Hr); simpl.
  rewrite (div_3600_not_ltb r (leb_zero_not_ltb r Hr)). reflexivity.
Qed.

Lemma rate_change_reprices_witness :
  getCurrentEarnings
    (updateElapsedTime (Js.Num 60)
       (setHourlyWage (Js.Num 2000)
          (updateElapsedTime (Js.Num 30) (setHourlyWage (Js.Num 1000) new))))
  = 2000 / 3600 * 60.
Proof.
  exact (rate_change_reprices 2000 (Js.Num 60)
           (updateElapsedTime (Js.Num 30) (setHourlyWage (Js.Num 1000) new))
           eq_refl eq_refl).
Defined.

Lemma apply_keeps_session (c : Reach.call) (w : t) (d : Z) :
  RunnerReach.keepsSession c = true ->
  startTime w = Some d -> startTime (Reach.apply c w) = Some d.
Proof.
  intros Hc Hw. destruct c; cbn [Reach.apply]; try exact Hw; try discriminate Hc.
  unfold start. destruct (negb (isRunning w)); simpl; [|exact Hw].
  rewrite Hw. reflexivity.
Qed.

(** The first [start()] of a stopped counter records the session start,
    and no later call other than [reset()] changes it: it survives
    every stop and restart. *)
Theorem session_start_kept (now : Z) (w : t) (calls : list Reach.call) :
  isRunning w = false ->
  startTime w = None ->
  forallb RunnerReach.keepsSession calls = true ->
  startTime (fold_left (fun w c => Reach.apply c w) calls (start now w))
  = Some now.
Proof.
  intros Hrun Hnone Hcalls.
  assert (Hstart : startTime (start now w) = Some now).
  { unfold start. rewrite Hrun, Hnone. reflexivity. }
  revert Hstart. generalize (start now w) as w1.
  induction calls as [|c calls IH]; intros w1 Hw1; simpl; [exact Hw1|].
  simpl in Hcalls. apply andb_true_iff in Hcalls as [Hc Hcalls].
  apply (IH Hcalls). apply apply_keeps_session; assumption.
Qed.

Lemma session_start_kept_witness :
  startTime
    (fold_left (fun w c => Reach.apply c w)
       [Reach.Stop; Reach.Start 5000%Z; Reach.UpdateElapsedTime (Js.Num 3)]
       (start 1000 new))
  = Some 1000%Z.
Proof.
  exact (session_start_kept 1000 new
           [Reach.Stop; Reach.Start 5000%Z; Reach.UpdateElapsedTime (Js.Num 3)]
           eq_refl eq_refl eq_refl).
Defined.

Lemma runner_apply_agrees (c : Reach.call) (w : t) :
  RunnerReach.validatedWage c = true ->
  (perSecondWage w <? 0) = false ->
  RunnerReach.apply c w = Reach.apply c w.
Proof.
  intros Hc Hw. destruct c as [wage|seconds|now| |]; cbn [RunnerReach.apply Reach.apply];
    try reflexivity.
  - destruct wage as [| |b|r|]; try discriminate Hc. simpl in Hc.
    unfold RunnerCopy.setHourlyWage, setHourlyWage, Js.lt; simpl.
    rewrite (leb_zero_not_ltb r Hc). reflexivity.
  - unfold RunnerCopy.updateElapsedTime, updateElapsedTime, updateCurrentEarnings,
      RunnerCopy.calculateEarningsForSeconds, calculateEarningsForSeconds; simpl.
    rewrite Hw. reflexivity.
Qed.

(** The runner's copy of the accumulator and the application's reach
    the same state under the same calls, as long as the wages set are
    numbers that are not negative; and the two copies of
    [calculatePerSecondWage] return the same rate for every argument. *)
Theorem runner_copy_agrees :
  (forall calls : list Reach.call,
      forallb RunnerReach.validatedWage calls = true ->
      RunnerReach.after calls = Reach.after calls)
  /\ (forall v : Js.value,
         RunnerCopy.calculatePerSecondWage v = calculatePerSecondWage v).
Proof.
  split.
  - intros calls. unfold RunnerReach.after, Reach.after.
    assert (Hnew : (perSecondWage new <? 0) = false) by reflexivity.
    revert Hnew. generalize new as w.
    induction calls as [|c calls IH]; intros w Hw Hcalls; simpl; [reflexivity|].
    simpl in Hcalls. apply andb_true_iff in Hcalls as [Hc Hcalls].
    rewrite (runner_apply_agrees c w Hc Hw).
    apply IH; [apply apply_rate_not_negative, Hw | exact Hcalls].
  - intros v. unfold RunnerCopy.calculatePerSecondWage, calculatePerSecondWage.
    destruct (negb (Js.isNumber v) || Js.isNaN v); simpl; [reflexivity|].
    destruct (Js.lt v (Js.Num 0)); reflexivity.
Qed.

Lemma runner_copy_agrees_witness :
  RunnerReach.after [Reach.SetHourlyWage (Js.Num 1500);
                     Reach.UpdateElapsedTime (Js.Num 28800)]
  = Reach.after [Reach.SetHourlyWage (Js.Num 1500);
                 Reach.UpdateElapsedTime (Js.Num 28800)].
Proof.
  exact (proj1 runner_copy_agrees
           [Reach.SetHourlyWage (Js.Num 1500);
            Reach.UpdateElapsedTime (Js.Num 28800)] eq_refl).
Defined.

End AccumulatorExtras.

(** ** More on the clock *)

Section ClockExtras.

Import TimerManager.

Ltac clock_cases :=
  unfold setUpdateInterval, fire, reset, start, stop, getElapsedSeconds,
    totalElapsed, Js.truthyInstant, Js.instantToNumber,
    Scheduler.setInterval in *;
  simpl in *;
  repeat match goal with
         | |- context [if ?b then _ else _] => destruct b eqn:?; simpl in *
         | |- context [match ?o with Some _ => _ | None => _ end] =>
             destruct o eqn:?; simpl in *
         | H : (_ =? _) = true |- _ => apply Z.eqb_eq in H
         | H : (_ =? _) = false |- _ => apply Z.eqb_neq in H
         end;
  try congruence; try lia.

(** [stop()] freezes the reading: whenever the clock is read after a
    [stop()] made at instant [b], [getElapsedSeconds()] returns what it
    returned at [b], on every state of the timer. *)
Theorem stop_freezes_reading (b later : Z) (st : TimerManager.t * Scheduler.t) :
  getElapsedSeconds later (fst (stop b st)) = getElapsedSeconds b (fst st).
Proof.
  destruct st as [[cb iid run anchor paused delay] sch].
  destruct run; clock_cases.
Qed.

(** [start()] and [stop()] are idempotent, also when the second call
    comes at a later instant: the anchor, the accumulated time, the
    handle and the scheduler are those of the first call. *)
Theorem start_stop_idempotent (now later : Z) (st : TimerManager.t * Scheduler.t) :
  start later (start now st) = start now st
  /\ stop later (stop now st) = stop now st.
Proof.
  destruct st as [[cb iid run anchor paused delay] sch].
  destruct cb, run; split; reflexivity.
Qed.

(** [reset()] discards the accumulated time: afterwards the timer is
    stopped without anchor or handle, every reading is 0, the handle it
    held is no longer pending, and a new [start()] at [a] measures from
    [a] alone. *)
Theorem reset_discards (now : Z) (st : TimerManager.t * Scheduler.t) :
  History.handleInvariant st ->
  isRunning (fst (reset now st)) = false
  /\ intervalId (fst (reset now st)) = None
  /\ startTime (fst (reset now st)) = None
  /\ (forall t, getElapsedSeconds t (fst (reset now st)) = 0)
  /\ (forall id, intervalId (fst st) = Some id ->
                 Scheduler.pending id (snd (reset now st)) = false)
  /\ (forall a b, a <> 0 ->
        getElapsedSeconds b (fst (start a (reset now st))) = (b - a) / 1000).
Proof.
  intros Hinv.
  pose proof (reset_handleInvariant now st Hinv) as Hinv'.
  assert (Hrun : isRunning (fst (reset now st)) = false).
  { unfold reset. destruct (if isRunning (fst st) then _ else _). reflexivity. }
  assert (Hid : intervalId (fst (reset now st)) = None)
    by (apply stopped_holds_no_handle; assumption).
  assert (Hst : startTime (fst (reset now st)) = None).
  { unfold reset. destruct (if isRunning (fst st) then _ else _). reflexivity. }
  assert (Hp : pausedTime (fst (reset now st)) = 0).
  { unfold reset. destruct (if isRunning (fst st) then _ else _). reflexivity. }
  split; [exact Hrun|]. split; [exact Hid|]. split; [exact Hst|].
  split; [|split].
  - intros t. unfold getElapsedSeconds, totalElapsed. rewrite Hrun, Hp. reflexivity.
  - intros id Hheld. destruct st as [tm sch]. simpl in Hheld.
    assert (Hwas : isRunning tm = true) by (apply Hinv; simpl; congruence).
    unfold reset, stop; simpl. rewrite Hwas; simpl. rewrite Hheld.
    unfold Scheduler.pending, Scheduler.clearInterval; simpl.
    apply bool_decide_eq_false. rewrite lookup_delete_eq.
    intros [x Hx]. discriminate Hx.
  - intros a b Ha. destruct (reset now st) as [tm' sch'] eqn:Hreset.
    simpl in Hrun, Hp. unfold start. rewrite Hrun.
    apply Z.eqb_neq in Ha.
    destruct (Js.weakRefThrows (callback tm')); simpl;
      unfold getElapsedSeconds, totalElapsed; simpl; rewrite Hp, Ha;
      cbn [negb andb]; reflexivity.
Qed.

Lemma reset_discards_witness :
  let st := stop 4000 (start 1000 (new Js.CbFunction, Scheduler.empty)) in
  getElapsedSeconds 4000 (fst st) = 3
  /\ getElapsedSeconds 9000 (fst (reset 5000 st)) = 0
  /\ getElapsedSeconds 9000 (fst (start 7000 (reset 5000 st))) = 2.
Proof.
  split; [reflexivity|].
  destruct (reset_discards 5000
              (stop 4000 (start 1000 (new Js.CbFunction, Scheduler.empty))))
    as (_ & _ & _ & Hzero & _ & Hfresh).
  - apply stop_handleInvariant, start_handleInvariant;
      [reflexivity | apply new_handleInvariant].
  - split; [apply Hzero | apply (Hfresh 7000 9000); lia].
Defined.

(** [setUpdateInterval] ignores an argument that is not a number above
    zero: the timer and the scheduler stay as they are.  With a number
    above zero, on a timer that holds its handle properly and is alone
    on the scheduler, the new delay is stored, the timer runs exactly
    when it ran before, and the pending timers are again exactly the
    one of the handle held, now with the new delay; the timer still
    holds its handle properly when its callback is one that [start()]
    can take. *)
Theorem setUpdateInterval_effect (interval : Js.value) (now now' : Z)
    (st : TimerManager.t * Scheduler.t) :
  (Js.isNumber interval && Js.gt interval (Js.Num 0) = false ->
   setUpdateInterval interval now now' st = st)
  /\ (Js.isNumber interval && Js.gt interval (Js.Num 0) = true ->
      History.handleInvariant st -> History.soleInterval st ->
      let st' := setUpdateInterval interval now now' st in
      getUpdateInterval (fst st') = Js.toNumber interval
      /\ isRunning (fst st') = isRunning (fst st)
      /\ (Js.weakRefThrows (callback (fst st)) = false ->
          History.handleInvariant st')
      /\ History.soleInterval st').
Proof.
  split.
  - intros Hbad. destruct st as [tm sch]. unfold setUpdateInterval.
    rewrite Hbad. reflexivity.
  - intros Hok Hinv Hsole st'.
    pose proof (fun Hcb => step_handleInvariant
                  (History.SetUpdateInterval interval now now') st Hcb Hinv) as H1.
    pose proof (step_soleInterval
                  (History.SetUpdateInterval interval now now') st Hinv Hsole) as H2.
    cbn [History.step] in H1, H2. fold st' in H1, H2.
    split; [|split; [|split; assumption]].
    + subst st'. destruct st as [tm sch]. destruct (isRunning tm) eqn:Hrun.
      * apply (restart_keeps_total interval now now' tm sch Hrun Hok).
      * unfold setUpdateInterval. rewrite Hok. simpl. rewrite Hrun. reflexivity.
    + subst st'. destruct st as [tm sch]. cbn [fst].
      destruct (isRunning tm) eqn:Hrun.
      * apply (restart_keeps_total interval now now' tm sch Hrun Hok).
      * unfold setUpdateInterval. rewrite Hok. simpl. rewrite Hrun. reflexivity.
Qed.

Lemma setUpdateInterval_effect_witness :
  let st := start 1000 (new Js.CbFunction, Scheduler.empty) in
  setUpdateInterval (Js.Num (-5)) 2000 2000 st = st
  /\ setUpdateInterval Js.Undefined 2000 2000 st = st
  /\ getUpdateInterval (fst (setUpdateInterval (Js.Num 5000) 2000 2000 st))
     = 5000%float
  /\ History.soleInterval (setUpdateInterval (Js.Num 5000) 2000 2000 st).
Proof.
  cbv zeta.
  split; [exact (proj1 (setUpdateInterval_effect (Js.Num (-5)) 2000 2000
                          (start 1000 (new Js.CbFunction, Scheduler.empty)))
                   eq_refl)|].
  split; [exact (proj1 (setUpdateInterval_effect Js.Undefined 2000 2000
                          (start 1000 (new Js.CbFunction, Scheduler.empty)))
                   eq_refl)|].
  destruct (proj2 (setUpdateInterval_effect (Js.Num 5000) 2000 2000
                     (start 1000 (new Js.CbFunction, Scheduler.empty)))
              eq_refl)
    as (Hd & _ & _ & Hs).
  - apply start_handleInvariant; [reflexivity | apply new_handleInvariant].
  - apply start_soleInterval; [apply new_handleInvariant | reflexivity].
  - split; [exact Hd | exact Hs].
Defined.

Lemma step_healthy (o : History.op) (from : Z)
    (st : TimerManager.t * Scheduler.t) :
  Healthy.inv from (fst st) ->
  from <= History.firstRead o ->
  History.firstRead o <= History.lastRead o ->
  Healthy.inv (History.lastRead o) (fst (History.step o st)).
Proof.
  unfold Healthy.inv. intros [Hp Ha] H1 H2. destruct st as [tm sch].
  destruct tm as [cb iid run anchor paused delay].
  destruct o as [now|now|now|interval now now'|id alive now];
    cbn [History.step History.firstRead History.lastRead] in *;
    destruct cb, run; simpl in *;
    try (specialize (Ha eq_refl));
    split; clock_cases.
Qed.

Lemma healthy_reading (now t : Z) (tm : TimerManager.t) :
  Healthy.inv now tm -> now <= t -> 0 <= totalElapsed t tm.
Proof.
  unfold Healthy.inv. intros [Hp Ha] Ht.
  destruct tm as [cb iid run anchor paused delay]. destruct run; simpl in *.
  - specialize (Ha eq_refl). clock_cases.
  - clock_cases.
Qed.

Lemma run_healthy (ops : list History.op) :
  forall (from : Z) (st : TimerManager.t * Scheduler.t),
    Healthy.inv from (fst st) ->
    History.chronological from ops ->
    Healthy.inv (History.endOf from ops) (fst (History.run ops st)).
Proof.
  induction ops as [|o ops IH]; intros from st Hinv Hch; [exact Hinv|].
  destruct Hch as (H1 & H2 & Hch).
  change (History.run (o :: ops) st) with (History.run ops (History.step o st)).
  cbn [History.endOf]. apply IH; [|exact Hch].
  apply (step_healthy o from st Hinv H1 H2).
Qed.

(** [getElapsedSeconds()] is never negative: after any history of
    calls on a fresh timer, whatever its callback, [reset()] included,
    read on a wall clock that does not run backwards. *)
Theorem elapsed_never_negative (ops : list History.op) (t0 t : Z)
    (cb : Js.callback) (sch : Scheduler.t) :
  History.chronological t0 ops ->
  History.endOf t0 ops <= t ->
  0 <= getElapsedSeconds t (fst (History.run ops (new cb, sch))).
Proof.
  intros Hch Ht. unfold getElapsedSeconds. apply Z.div_pos; [|lia].
  apply (healthy_reading (History.endOf t0 ops)); [|exact Ht].
  apply run_healthy; [|exact Hch].
  split; simpl; [lia | discriminate].
Qed.

Lemma elapsed_never_negative_witness :
  0 <= getElapsedSeconds 9000
         (fst (History.run [History.Start 1000; History.Reset 3000;
                            History.Start 3000; History.Stop 8000]
                 (new Js.CbFunction, Scheduler.empty))).
Proof.
  apply (elapsed_never_negative
           [History.Start 1000; History.Reset 3000;
            History.Start 3000; History.Stop 8000] 0 9000
           Js.CbFunction Scheduler.empty).
  - simpl. lia.
  - simpl. lia.
Defined.

End ClockExtras.

(** ** The breakdown and the timer's own rendering *)

Section BreakdownProperties.

Local Open Scope string_scope.

(** The breakdown of a count of seconds that is not negative adds up to
    it again, with minutes and seconds below 60 and no bound on the
    hours; the timer breaks its reading down the same way. *)
Theorem breakdown_recomposes (n : Z) :
  0 <= n ->
  (let '(h, m, s) := WageCounter.breakdown n in
   h * 3600 + m * 60 + s = n /\ 0 <= h /\ 0 <= m < 60 /\ 0 <= s < 60)
  /\ (forall now tm,
         TimerManager.getElapsedSeconds now tm = n ->
         let '(h, m, s) := TimerManager.getElapsedTimeBreakdown now tm in
         h * 3600 + m * 60 + s = n /\ 0 <= h /\ 0 <= m < 60 /\ 0 <= s < 60).
Proof.
  intros Hn.
  assert (H : let '(h, m, s) := WageCounter.breakdown n in
              h * 3600 + m * 60 + s = n /\ 0 <= h /\ 0 <= m < 60 /\ 0 <= s < 60).
  { unfold WageCounter.breakdown. rewrite !Z.rem_mod_nonneg by lia.
    pose proof (Z.div_mod n 3600 ltac:(lia)) as H1.
    pose proof (Z.mod_pos_bound n 3600 ltac:(lia)) as H2.
    pose proof (Z.div_mod (n mod 3600) 60 ltac:(lia)) as H3.
    pose proof (Z.mod_pos_bound (n mod 3600) 60 ltac:(lia)) as H4.
    pose proof (Z.mod_pos_bound n 60 ltac:(lia)) as H5.
    assert (H6 : (n mod 3600) mod 60 = n mod 60).
    { replace (n mod 3600) with (n + (- (60 * (n / 3600))) * 60)
        by (rewrite (Z.mod_eq n 3600); lia).
      apply Z.mod_add. lia. }
    assert (H7 : 0 <= n / 3600) by (apply Z.div_pos; lia).
    assert (H8 : 0 <= n mod 3600 / 60 < 60).
    { split; [apply Z.div_pos; lia | apply Z.div_lt_upper_bound; lia]. }
    repeat split; try lia. }
  split; [exact H|].
  intros now tm Hread. unfold TimerManager.getElapsedTimeBreakdown.
  rewrite Hread. exact H.
Qed.

Lemma breakdown_recomposes_witness :
  WageCounter.breakdown 90061 = (25, 1, 1)
  /\ 25 * 3600 + 1 * 60 + 1 = 90061.
Proof.
  split; [reflexivity|].
  exact (proj1 (proj1 (breakdown_recomposes 90061 ltac:(lia)))).
Defined.

(** The timer's own [getFormattedElapsedTime()], on a reading that is
    not negative, is [hh:mm:ss]: [hh] has two digits or more and denotes
    the whole hours of the reading, [mm] and [ss] have exactly two
    digits and denote its minutes and seconds; it is the string the
    counter renders for the same count of seconds. *)
Theorem timer_formatted_shape (now : Z) (tm : TimerManager.t) :
  0 <= TimerManager.getElapsedSeconds now tm ->
  TimerManager.getFormattedElapsedTime now tm
  = WageCounter.formatHMS (TimerManager.getElapsedSeconds now tm)
  /\ exists hh mm ss : string,
       TimerManager.getFormattedElapsedTime now tm = hh ++ ":" ++ mm ++ ":" ++ ss
       /\ (2 <= String.length hh)%nat
       /\ Js.decimalValue hh = Some (TimerManager.getElapsedSeconds now tm / 3600)
       /\ String.length mm = 2%nat
       /\ Js.decimalValue mm
          = Some ((TimerManager.getElapsedSeconds now tm mod 3600) / 60)
       /\ String.length ss = 2%nat
       /\ Js.decimalValue ss = Some (TimerManager.getElapsedSeconds now tm mod 60).
Proof.
  intros Hn. split; [reflexivity|].
  unfold TimerManager.getFormattedElapsedTime, TimerManager.getElapsedTimeBreakdown.
  set (n := TimerManager.getElapsedSeconds now tm) in *.
  rewrite !Z.rem_mod_nonneg by lia.
  assert (H3600 : 0 <= n mod 3600 < 3600) by (apply Z.mod_pos_bound; lia).
  assert (Hm : 0 <= (n mod 3600) / 60 < 60).
  { split; [apply Z.div_pos; lia | apply Z.div_lt_upper_bound; lia]. }
  assert (Hs : 0 <= n mod 60 < 60) by (apply Z.mod_pos_bound; lia).
  assert (Hh : 0 <= n / 3600) by (apply Z.div_pos; lia).
  destruct (hours_field _ Hh) as [Hh1 Hh2].
  destruct (small_field _ Hm) as [Hm1 Hm2].
  destruct (small_field _ Hs) as [Hs1 Hs2].
  eexists _, _, _. split; [reflexivity|].
  repeat split; assumption.
Qed.

Lemma timer_formatted_shape_witness :
  TimerManager.getFormattedElapsedTime 3726000
    (fst (TimerManager.start 1000
            (TimerManager.new Js.CbFunction, Scheduler.empty)))
  = "01:02:05".
Proof.
  rewrite (proj1 (timer_formatted_shape 3726000
             (fst (TimerManager.start 1000
            (TimerManager.new Js.CbFunction, Scheduler.empty)))
             ltac:(vm_compute; discriminate))).
  reflexivity.
Defined.

End BreakdownProperties.

(** ** More on the coordinator *)

Section CoordinatorExtras.

Lemma wageCounter_start_running (now : Z) (w : WageCounter.t) :
  WageCounter.isRunning (WageCounter.start now w) = true.
Proof.
  unfold WageCounter.start. destruct (WageCounter.isRunning w) eqn:Hr; simpl;
    [exact Hr | reflexivity].
Qed.

Lemma timer_start_running (now : Z) (st : TimerManager.t * Scheduler.t) :
  TimerManager.isRunning (fst (TimerManager.start now st)) = true.
Proof.
  destruct st as [tm sch]. unfold TimerManager.start.
  destruct (TimerManager.isRunning tm) eqn:Hr; simpl; [exact Hr|].
  destruct (Js.weakRefThrows (TimerManager.callback tm)); reflexivity.
Qed.

(** A timer that is running, or whose callback is a function, starts
    without throwing. *)
Lemma started_does_not_throw (now : Z) (st : TimerManager.t * Scheduler.t) :
  TimerManager.startThrows (fst (TimerManager.start now st)) = false.
Proof.
  unfold TimerManager.startThrows. rewrite timer_start_running. reflexivity.
Qed.

Lemma timer_calls_keep_callback (now : Z) (st : TimerManager.t * Scheduler.t) :
  TimerManager.callback (fst (TimerManager.start now st))
  = TimerManager.callback (fst st)
  /\ TimerManager.callback (fst (TimerManager.stop now st))
     = TimerManager.callback (fst st)
  /\ TimerManager.callback (fst (TimerManager.reset now st))
     = TimerManager.callback (fst st).
Proof.
  split; [exact (step_callback (History.Start now) st)|].
  split; [exact (step_callback (History.Stop now) st)|].
  exact (step_callback (History.Reset now) st).
Qed.

Lemma closure_does_not_throw (tm : TimerManager.t) :
  TimerManager.callback tm = Js.CbFunction ->
  TimerManager.startThrows tm = false
  /\ Js.weakRefThrows (TimerManager.callback tm) = false.
Proof.
  intros Hcb. unfold TimerManager.startThrows. rewrite Hcb.
  split; [apply andb_false_r | reflexivity].
Qed.

Lemma timer_stop_stopped (now : Z) (st : TimerManager.t * Scheduler.t) :
  TimerManager.isRunning (fst (TimerManager.stop now st)) = false.
Proof.
  destruct st as [tm sch]. unfold TimerManager.stop.
  destruct (TimerManager.isRunning tm) eqn:Hr; simpl; [reflexivity | exact Hr].
Qed.

Lemma timer_reset_stopped (now : Z) (st : TimerManager.t * Scheduler.t) :
  TimerManager.isRunning (fst (TimerManager.reset now st)) = false.
Proof.
  unfold TimerManager.reset.
  destruct (if TimerManager.isRunning (fst st) then _ else _). reflexivity.
Qed.

Lemma initialize_wellFormed (saved : App.savedWage) (st : App.t * Scheduler.t) :
  AppHistory.wellFormed st ->
  AppHistory.wellFormed (App.initialize saved (fst st), snd st).
Proof.
  destruct st as [[wc tmo init] sch]. unfold AppHistory.wellFormed, App.initialize.
  simpl. destruct init; simpl; [auto|].
  intros [_ Hrun].
  destruct saved; simpl; exists (TimerManager.new Js.CbFunction);
    (split; [reflexivity|]); (split; [simpl; congruence|]);
    (split; [reflexivity|]); apply new_handleInvariant.
Qed.

(** The methods on an initialized coordinator, in terms of the methods
    of its two components. *)
Lemma app_start_eq (saved : App.savedWage) (nowC nowT : Z)
    (wc : WageCounter.t) (tm : TimerManager.t) (sch : Scheduler.t) :
  App.start saved nowC nowT
    ({| App.wageCounter := wc; App.timerManager := Some tm;
        App.isInitialized := true |}, sch)
  = if Js.le (WageCounter.getHourlyWage wc) (Js.Num 0)
    then Some (false,
               ({| App.wageCounter := wc; App.timerManager := Some tm;
                   App.isInitialized := true |}, sch))
    else if TimerManager.startThrows tm then None
    else Some (true,
               ({| App.wageCounter := WageCounter.start nowC wc;
                   App.timerManager :=
                     Some (fst (TimerManager.start nowT (tm, sch)));
                   App.isInitialized := true |},
                snd (TimerManager.start nowT (tm, sch)))).
Proof.
  unfold App.start.
  cbn [negb andb fst snd App.isInitialized App.timerManager App.wageCounter].
  destruct (Js.le (WageCounter.getHourlyWage wc) (Js.Num 0)); [reflexivity|].
  destruct (TimerManager.startThrows tm); [reflexivity|].
  destruct (TimerManager.start nowT (tm, sch)). reflexivity.
Qed.

Lemma app_stop_eq (now : Z) (wc : WageCounter.t) (tm : TimerManager.t)
    (sch : Scheduler.t) :
  App.stop now
    ({| App.wageCounter := wc; App.timerManager := Some tm;
        App.isInitialized := true |}, sch)
  = Some ({| App.wageCounter := WageCounter.stop wc;
             App.timerManager := Some (fst (TimerManager.stop now (tm, sch)));
             App.isInitialized := true |},
          snd (TimerManager.stop now (tm, sch))).
Proof.
  unfold App.stop.
  cbn [negb fst snd App.isInitialized App.timerManager App.wageCounter].
  destruct (TimerManager.stop now (tm, sch)). reflexivity.
Qed.

Lemma app_reset_eq (now : Z) (wc : WageCounter.t) (tm : TimerManager.t)
    (sch : Scheduler.t) :
  App.reset now
    ({| App.wageCounter := wc; App.timerManager := Some tm;
        App.isInitialized := true |}, sch)
  = Some ({| App.wageCounter := WageCounter.reset wc;
             App.timerManager := Some (fst (TimerManager.reset now (tm, sch)));
             App.isInitialized := true |},
          snd (TimerManager.reset now (tm, sch))).
Proof.
  unfold App.reset.
  cbn [negb fst snd App.isInitialized App.timerManager App.wageCounter].
  destruct (TimerManager.reset now (tm, sch)). reflexivity.
Qed.

Lemma start_wellFormed (saved : App.savedWage) (nowC nowT : Z)
    (st : App.t * Scheduler.t) :
  App.isInitialized (fst st) = true ->
  AppHistory.wellFormed st ->
  exists r st', App.start saved nowC nowT st = Some (r, st')
                /\ AppHistory.wellFormed st'.
Proof.
  destruct st as [[wc tmo init] sch]. cbn [fst App.isInitialized]. intros ->.
  unfold AppHistory.wellFormed;
    cbn [fst snd App.isInitialized App.timerManager App.wageCounter].
  intros (tm & -> & Hsync & Hcb & Hinv).
  destruct (closure_does_not_throw tm Hcb) as [Hnothrow Hweak].
  rewrite app_start_eq, Hnothrow.
  destruct (Js.le (WageCounter.getHourlyWage wc) (Js.Num 0)).
  - eexists _, _. split; [reflexivity|]. exists tm. auto.
  - eexists _, _. split; [reflexivity|].
    eexists. cbn [fst snd App.timerManager App.wageCounter].
    split; [reflexivity|]. split; [|split].
    + rewrite timer_start_running, wageCounter_start_running. reflexivity.
    + rewrite (proj1 (timer_calls_keep_callback nowT (tm, sch))). exact Hcb.
    + rewrite <- surjective_pairing. apply start_handleInvariant; assumption.
Qed.

Lemma app_step_wellFormed (o : AppHistory.op) (st : App.t * Scheduler.t) :
  AppHistory.wellFormed st ->
  exists st', AppHistory.step o st = Some st' /\ AppHistory.wellFormed st'.
Proof.
  intros Hwf. destruct o as [saved|wage|saved nowC nowT|now|now|override now];
    cbn [AppHistory.step].
  - eexists. split; [reflexivity|]. apply initialize_wellFormed, Hwf.
  - eexists. split; [reflexivity|].
    destruct st as [[wc tmo init] sch]. unfold AppHistory.wellFormed in *.
    simpl in *. destruct init; exact Hwf.
  - destruct (App.isInitialized (fst st)) eqn:Hi.
    + destruct (start_wellFormed saved nowC nowT st Hi Hwf) as (r & st' & Hs & Hwf').
      exists st'. rewrite Hs. split; [reflexivity | exact Hwf'].
    + pose proof (initialize_wellFormed saved st Hwf) as Hwf1.
      assert (Hi1 : App.isInitialized
                      (fst (App.initialize saved (fst st), snd st)) = true)
        by apply initialize_initialized.
      destruct (start_wellFormed saved nowC nowT _ Hi1 Hwf1)
        as (r & st' & Hs & Hwf').
      exists st'. split; [|exact Hwf'].
      destruct st as [[wc tmo init] sch]. simpl in Hi. subst init.
      assert (Heq : App.start saved nowC nowT
                      ({| App.wageCounter := wc; App.timerManager := tmo;
                          App.isInitialized := false |}, sch)
                    = App.start saved nowC nowT
                        (App.initialize saved
                           {| App.wageCounter := wc; App.timerManager := tmo;
                              App.isInitialized := false |}, sch)).
      { unfold App.start, App.initialize.
        cbn [negb andb fst snd App.isInitialized App.timerManager App.wageCounter].
        destruct saved; reflexivity. }
      rewrite Heq. cbn [fst snd] in Hs. rewrite Hs. reflexivity.
  - destruct st as [[wc tmo init] sch]. unfold AppHistory.wellFormed in *.
    cbn [fst snd App.isInitialized App.timerManager App.wageCounter] in *.
    destruct init.
    + destruct Hwf as (tm & -> & Hsync & Hcb & Hinv).
      rewrite app_stop_eq. eexists. split; [reflexivity|].
      eexists. cbn [fst snd App.timerManager App.wageCounter].
      split; [reflexivity|]. split; [|split].
      * rewrite timer_stop_stopped. reflexivity.
      * rewrite (proj1 (proj2 (timer_calls_keep_callback now (tm, sch)))).
        exact Hcb.
      * rewrite <- surjective_pairing. apply stop_handleInvariant, Hinv.
    + eexists. split; [reflexivity|]. exact Hwf.
  - destruct st as [[wc tmo init] sch]. unfold AppHistory.wellFormed in *.
    cbn [fst snd App.isInitialized App.timerManager App.wageCounter] in *.
    destruct init.
    + destruct Hwf as (tm & -> & Hsync & Hcb & Hinv).
      rewrite app_reset_eq. eexists. split; [reflexivity|].
      eexists. cbn [fst snd App.timerManager App.wageCounter].
      split; [reflexivity|]. split; [|split].
      * rewrite timer_reset_stopped. reflexivity.
      * rewrite (proj2 (proj2 (timer_calls_keep_callback now (tm, sch)))).
        exact Hcb.
      * rewrite <- surjective_pairing. apply reset_handleInvariant, Hinv.
    + eexists. split; [reflexivity|]. exact Hwf.
  - destruct st as [[wc tmo init] sch]. unfold AppHistory.wellFormed in *.
    simpl in *. unfold App.updateEarnings; simpl. destruct init; simpl.
    + destruct Hwf as (tm & -> & Hsync & Hcb & Hinv).
      eexists. split; [reflexivity|]. simpl. exists tm.
      split; [reflexivity|]. split; [|split; assumption].
      rewrite Hsync.
      destruct (Js.le _ _); [destruct override|]; reflexivity.
    + eexists. split; [reflexivity|]. exact Hwf.
Qed.

Lemma wellFormed_synchronized (st : App.t * Scheduler.t) :
  AppHistory.wellFormed st -> App.isStateSynchronized (fst st) = Some true.
Proof.
  destruct st as [[wc tmo init] sch].
  unfold AppHistory.wellFormed, App.isStateSynchronized; simpl.
  destruct init; simpl; [|reflexivity].
  intros (tm & -> & Hsync & _).
  unfold TimerManager.getIsRunning, WageCounter.getIsRunning. rewrite Hsync.
  rewrite Bool.eqb_reflx. reflexivity.
Qed.

(** Whatever sequence of [initialize], [setHourlyWage], [start], [stop],
    [reset] and [updateEarnings] is applied to a new coordinator, in any
    order and with any arguments, no call fails on a missing timer, and
    the timer runs exactly when the counter does:
    [isStateSynchronized()] is true after every history. *)
Theorem coordinator_stays_synchronized (ops : list AppHistory.op)
    (sch : Scheduler.t) :
  exists st : App.t * Scheduler.t,
    AppHistory.run ops (App.new, sch) = Some st
    /\ App.isStateSynchronized (fst st) = Some true
    /\ App.timerRunning (fst st) = App.st_isRunning (App.getState (fst st)).
Proof.
  assert (Hnew : AppHistory.wellFormed (App.new, sch)) by (split; reflexivity).
  revert Hnew. generalize (App.new, sch) as st.
  induction ops as [|o ops IH]; intros st Hwf.
  - exists st. split; [reflexivity|].
    split; [apply wellFormed_synchronized, Hwf|].
    destruct st as [[wc tmo init] sch0].
    unfold AppHistory.wellFormed in Hwf; simpl in Hwf.
    unfold App.timerRunning, App.getState; simpl.
    destruct init.
    + destruct Hwf as (tm & -> & Hsync & _). exact Hsync.
    + destruct Hwf as [-> Hrun]. symmetry. exact Hrun.
  - destruct (app_step_wellFormed o st Hwf) as (st' & Hstep & Hwf').
    simpl. rewrite Hstep. apply IH, Hwf'.
Qed.

Lemma timer_start_twice (now later : Z) (st : TimerManager.t * Scheduler.t) :
  TimerManager.start later (TimerManager.start now st) = TimerManager.start now st.
Proof.
  destruct st as [[cb iid run anchor paused delay] sch].
  destruct cb, run; reflexivity.
Qed.

Lemma wageCounter_start_twice (now later : Z) (w : WageCounter.t) :
  WageCounter.start later (WageCounter.start now w) = WageCounter.start now w.
Proof.
  destruct w as [hw ce es run psw st pt]. destruct run; reflexivity.
Qed.

Lemma wageCounter_start_wage (now : Z) (w : WageCounter.t) :
  WageCounter.getHourlyWage (WageCounter.start now w) = WageCounter.getHourlyWage w.
Proof.
  unfold WageCounter.start. destruct (negb (WageCounter.isRunning w)); reflexivity.
Qed.

(** [start()] on a coordinator not yet initialized is [start()] on the
    initialized one. *)
Lemma app_start_initializes (saved : App.savedWage) (nowC nowT : Z)
    (wc : WageCounter.t) (tmo : option TimerManager.t) (sch : Scheduler.t) :
  App.start saved nowC nowT
    ({| App.wageCounter := wc; App.timerManager := tmo;
        App.isInitialized := false |}, sch)
  = App.start saved nowC nowT
      ({| App.wageCounter :=
            App.wageCounter
              (App.loadSavedSettings saved
                 {| App.wageCounter := wc;
                    App.timerManager := Some (TimerManager.new Js.CbFunction);
                    App.isInitialized := false |});
          App.timerManager := Some (TimerManager.new Js.CbFunction);
          App.isInitialized := true |}, sch).
Proof.
  unfold App.start, App.initialize.
  cbn [negb andb fst snd App.isInitialized App.timerManager App.wageCounter].
  destruct saved; reflexivity.
Qed.

Lemma app_start_twice_initialized (saved saved' : App.savedWage)
    (nowC nowT nowC' nowT' : Z) (wc : WageCounter.t) (tm : TimerManager.t)
    (sch : Scheduler.t) (st1 : App.t * Scheduler.t) :
  App.start saved nowC nowT
    ({| App.wageCounter := wc; App.timerManager := Some tm;
        App.isInitialized := true |}, sch) = Some (true, st1) ->
  App.start saved' nowC' nowT' st1 = Some (true, st1).
Proof.
  rewrite app_start_eq.
  destruct (Js.le (WageCounter.getHourlyWage wc) (Js.Num 0)) eqn:Hgate;
    [discriminate|].
  destruct (TimerManager.startThrows tm) eqn:Hthrow; [discriminate|].
  intros H.
  match type of H with
  | Some (true, ?x) = _ => assert (Hst : st1 = x) by congruence
  end.
  clear H. subst st1. rewrite app_start_eq.
  rewrite wageCounter_start_wage, Hgate, started_does_not_throw.
  rewrite wageCounter_start_twice.
  rewrite <- (surjective_pairing (TimerManager.start nowT (tm, sch))).
  rewrite timer_start_twice. reflexivity.
Qed.

(** [start()] is idempotent on the coordinator: once a [start()] has
    succeeded, a second one, at any later instant, succeeds too and
    leaves the coordinator and the scheduler exactly as they are (the
    session start, the anchor and the interval are those of the first
    call). *)
Theorem coordinator_start_idempotent (saved saved' : App.savedWage)
    (nowC nowT nowC' nowT' : Z) (st st1 : App.t * Scheduler.t) :
  App.start saved nowC nowT st = Some (true, st1) ->
  App.start saved' nowC' nowT' st1 = Some (true, st1).
Proof.
  destruct st as [[wc tmo init] sch]. destruct init.
  - destruct tmo as [tm|].
    + apply app_start_twice_initialized.
    + unfold App.start.
      cbn [negb andb fst snd App.isInitialized App.timerManager App.wageCounter].
      destruct (Js.le _ _); discriminate.
  - rewrite app_start_initializes. apply app_start_twice_initialized.
Qed.

Lemma coordinator_start_idempotent_witness :
  exists st1 : App.t * Scheduler.t,
    App.start (App.SavedValid 1800) 1000 1000 (App.new, Scheduler.empty)
    = Some (true, st1)
    /\ App.start (App.SavedValid 1800) 5000 5000 st1 = Some (true, st1).
Proof.
  eexists. split; [reflexivity|].
  apply (coordinator_start_idempotent (App.SavedValid 1800) (App.SavedValid 1800)
           1000 1000 5000 5000 (App.new, Scheduler.empty)).
  reflexivity.
Defined.

(** [reset()] on an initialized coordinator clears the session and
    keeps the wage: the snapshot shows a stopped counter with earnings
    0, elapsed time 0 rendered ["00:00:00"], and the hourly wage and
    the rate as before; the timer is stopped and reads 0 at every
    instant. *)
Theorem coordinator_reset_snapshot (now : Z) (wc : WageCounter.t)
    (tm : TimerManager.t) (sch : Scheduler.t) :
  exists (app' : App.t) (sch' : Scheduler.t) (tm' : TimerManager.t),
    App.reset now
      ({| App.wageCounter := wc; App.timerManager := Some tm;
          App.isInitialized := true |}, sch) = Some (app', sch')
    /\ App.getState app'
       = {| App.st_isRunning := false;
            App.st_hourlyWage := WageCounter.getHourlyWage wc;
            App.st_currentEarnings := 0%float;
            App.st_elapsedSeconds := Js.Num 0;
            App.st_formattedElapsedTime := Some "00:00:00"%string;
            App.st_perSecondWage := WageCounter.getPerSecondWage wc |}
    /\ App.timerManager app' = Some tm'
    /\ TimerManager.getIsRunning tm' = false
    /\ (forall t, TimerManager.getElapsedSeconds t tm' = 0)
    /\ App.isStateSynchronized app' = Some true.
Proof.
  rewrite app_reset_eq.
  eexists _, _, _. split; [reflexivity|].
  split; [reflexivity|]. split; [reflexivity|].
  pose proof (timer_reset_stopped now (tm, sch)) as Hrun.
  assert (Hp : TimerManager.pausedTime (fst (TimerManager.reset now (tm, sch))) = 0).
  { unfold TimerManager.reset.
    destruct (if TimerManager.isRunning (fst (tm, sch)) then _ else _). reflexivity. }
  split; [exact Hrun|]. split.
  - intros t. unfold TimerManager.getElapsedSeconds, TimerManager.totalElapsed.
    rewrite Hrun, Hp. reflexivity.
  - unfold App.isStateSynchronized.
    cbn [negb App.isInitialized App.timerManager App.wageCounter].
    unfold TimerManager.getIsRunning. rewrite Hrun. reflexivity.
Qed.

(** One tick on an initialized coordinator whose rate is its wage over
    3600, outside test mode: the snapshot then holds the timer's reading
    as elapsed seconds and, when the wage is a number [>= 0], earnings
    that are exactly the rate times that reading; when the wage is not
    (it is NaN), the earnings are set to 0.  Wage, rate and running
    flag are untouched. *)
Theorem tick_recomputes_earnings (now : Z) (wc : WageCounter.t)
    (tm : TimerManager.t) :
  WageCounter.perSecondWage wc
  = Js.div (WageCounter.hourlyWage wc) (Js.Num 3600) ->
  exists app' : App.t,
    App.updateEarnings None now
      {| App.wageCounter := wc; App.timerManager := Some tm;
         App.isInitialized := true |} = Some app'
    /\ App.st_elapsedSeconds (App.getState app')
       = Js.Num (Js.ofInteger (TimerManager.getElapsedSeconds now tm))
    /\ (Js.le (Js.Num 0) (WageCounter.hourlyWage wc) = true ->
        App.st_currentEarnings (App.getState app')
        = PrimFloat.mul (App.st_perSecondWage (App.getState app'))
            (Js.toNumber (App.st_elapsedSeconds (App.getState app'))))
    /\ (Js.le (Js.Num 0) (WageCounter.hourlyWage wc) = false ->
        App.st_currentEarnings (App.getState app') = 0%float)
    /\ App.st_hourlyWage (App.getState app') = WageCounter.hourlyWage wc
    /\ App.st_perSecondWage (App.getState app') = WageCounter.perSecondWage wc
    /\ App.st_isRunning (App.getState app') = WageCounter.isRunning wc.
Proof.
  intros Hrate. unfold App.updateEarnings.
  cbn [negb App.isInitialized App.timerManager App.wageCounter].
  eexists. split; [reflexivity|].
  unfold App.getState, WageCounter.getHourlyWage, WageCounter.updateElapsedTime,
    WageCounter.updateCurrentEarnings.
  cbn [App.wageCounter App.st_elapsedSeconds App.st_currentEarnings
       App.st_hourlyWage App.st_perSecondWage App.st_isRunning
       WageCounter.setCurrentEarnings WageCounter.setElapsedTime
       WageCounter.hourlyWage WageCounter.elapsedSeconds
       WageCounter.perSecondWage WageCounter.isRunning
       WageCounter.getElapsedTime WageCounter.getCurrentEarnings
       WageCounter.getPerSecondWage WageCounter.getIsRunning].
  destruct (Js.le (Js.Num 0) (WageCounter.hourlyWage wc)) eqn:Hge;
    cbn [App.wageCounter WageCounter.setCurrentEarnings
         WageCounter.hourlyWage WageCounter.elapsedSeconds
         WageCounter.currentEarnings
         WageCounter.perSecondWage WageCounter.isRunning];
    (split; [reflexivity|]); (split; [|split; [|repeat split]]);
    try discriminate; try reflexivity.
  intros _. rewrite <- Hrate. reflexivity.
Qed.

Lemma tick_recomputes_earnings_witness :
  exists app' : App.t,
    App.updateEarnings None 61000
      {| App.wageCounter :=
           WageCounter.setHourlyWage (Js.Num 1800) WageCounter.new;
         App.timerManager :=
           Some (fst (TimerManager.start 1000
                        (TimerManager.new Js.CbFunction, Scheduler.empty)));
         App.isInitialized := true |} = Some app'
    /\ App.st_elapsedSeconds (App.getState app') = Js.Num 60
    /\ App.st_currentEarnings (App.getState app') = 30%float.
Proof.
  destruct (tick_recomputes_earnings 61000
              (WageCounter.setHourlyWage (Js.Num 1800) WageCounter.new)
              (fst (TimerManager.start 1000
            (TimerManager.new Js.CbFunction, Scheduler.empty)))
              eq_refl)
    as (app' & Heq & Hel & Hearn & _).
  exists app'. split; [exact Heq|]. split; [exact Hel|].
  rewrite (Hearn eq_refl), Hel. injection Heq as <-. reflexivity.
Defined.

(** The check of [start()] refuses exactly the wages that compare
    [<= 0]: on an initialized coordinator, [start()] returns true, with
    the counter and the timer both running, if and only if the stored
    wage is not [<= 0] and the timer's [start()] does not throw (its
    callback is the closure, or it is running already).  A wage that is
    NaN is therefore let through. *)
Theorem start_gate_characterised (saved : App.savedWage) (nowC nowT : Z)
    (wc : WageCounter.t) (tm : TimerManager.t) (sch : Scheduler.t) :
  (Js.le (WageCounter.getHourlyWage wc) (Js.Num 0) = false
   /\ TimerManager.startThrows tm = false
   <-> exists st1,
         App.start saved nowC nowT
           ({| App.wageCounter := wc; App.timerManager := Some tm;
               App.isInitialized := true |}, sch) = Some (true, st1)
         /\ App.st_isRunning (App.getState (fst st1)) = true
         /\ App.timerRunning (fst st1) = true)
  /\ (TimerManager.startThrows tm = false ->
      exists st1,
         App.start saved nowC nowT
           ({| App.wageCounter := WageCounter.setHourlyWage (Js.Num nan) wc;
               App.timerManager := Some tm;
               App.isInitialized := true |}, sch) = Some (true, st1)).
Proof.
  split; [split|].
  - intros [Hgate Hnothrow]. rewrite app_start_eq, Hgate, Hnothrow.
    eexists. split; [reflexivity|].
    cbn [fst]. unfold App.getState, App.timerRunning.
    cbn [App.st_isRunning App.wageCounter App.timerManager].
    unfold WageCounter.getIsRunning, TimerManager.getIsRunning.
    rewrite wageCounter_start_running, timer_start_running. split; reflexivity.
  - intros (st1 & Hstart & _). rewrite app_start_eq in Hstart.
    destruct (Js.le (WageCounter.getHourlyWage wc) (Js.Num 0));
      [discriminate Hstart|].
    destruct (TimerManager.startThrows tm);
      [discriminate Hstart | split; reflexivity].
  - intros Hnothrow. rewrite app_start_eq, Hnothrow.
    assert (Hnan : Js.le (WageCounter.getHourlyWage
                            (WageCounter.setHourlyWage (Js.Num nan) wc))
                         (Js.Num 0) = false) by reflexivity.
    rewrite Hnan. eexists. reflexivity.
Qed.

Lemma start_gate_characterised_witness :
  exists st1,
    App.start App.NoSavedValue 1000 1000
      ({| App.wageCounter := WageCounter.setHourlyWage (Js.Num 1200) WageCounter.new;
          App.timerManager := Some (TimerManager.new Js.CbFunction);
          App.isInitialized := true |}, Scheduler.empty) = Some (true, st1)
    /\ App.st_isRunning (App.getState (fst st1)) = true
    /\ App.timerRunning (fst st1) = true.
Proof.
  exact (proj1 (proj1 (start_gate_characterised App.NoSavedValue 1000 1000
                         (WageCounter.setHourlyWage (Js.Num 1200) WageCounter.new)
                         (TimerManager.new Js.CbFunction) Scheduler.empty))
               (conj eq_refl eq_refl)).
Defined.

End CoordinatorExtras.
